(** * NeverEnding: the 2D geometry kernel and the region quadtree

    A shallow embedding of [src/geometry/2D.ts] (the version that carries
    [Vector2D.filterDuplicateVectors]) and of [src/containers/QuadTree.ts].

    JavaScript numbers are IEEE-754 binary64 values; they are embedded as
    Rocq's primitive floats, whose [+ - * /], comparisons and [sqrt] are the
    IEEE operations that the JavaScript operators denote.  Arrays are lists,
    a method that pushes onto an accumulator array takes the accumulator and
    returns the extended one, and an object mutated in place is threaded
    through the functions that mutate it.  [QuadTree.insert], whose
    recursion the code bounds only through the layer numbers, takes the
    number of nested calls to follow. *)

From Stdlib Require Import Floats ZArith List Bool Lia Permutation.
From Stdlib Require Import SpecFloat.
Import ListNotations.

Set Warnings "-inexact-float".

(** ** JavaScript numbers *)

Module JS.

Open Scope float_scope.

Definition number := float.

(** [a < b], [a <= b], [a > b], [a >= b] and [a === b] on numbers. *)
Definition num_lt (a b : number) : bool := PrimFloat.ltb a b.
Definition num_le (a b : number) : bool := PrimFloat.leb a b.
Definition num_gt (a b : number) : bool := PrimFloat.ltb b a.
Definition num_ge (a b : number) : bool := PrimFloat.leb b a.
Definition strict_eq (a b : number) : bool := PrimFloat.eqb a b.

Definition isNaN (a : number) : bool := negb (PrimFloat.eqb a a).

Definition is_neg_zero (a : number) : bool :=
  match PrimFloat.classify a with
  | NZero => true
  | _ => false
  end.

Definition Math_abs (a : number) : number := PrimFloat.abs a.
Definition Math_sqrt (a : number) : number := PrimFloat.sqrt a.

(** [Math.max] and [Math.min] of two arguments: NaN is contagious and
    [-0] is smaller than [+0]. *)
Definition Math_max (a b : number) : number :=
  if isNaN a || isNaN b then nan
  else if num_lt a b then b
  else if num_lt b a then a
  else if is_neg_zero a then b else a.

Definition Math_min (a b : number) : number :=
  if isNaN a || isNaN b then nan
  else if num_lt a b then a
  else if num_lt b a then b
  else if is_neg_zero a then a else b.

(** [Math.pow(a, 2)].  ECMAScript leaves the precision of [Math.pow] to the
    implementation; the embedding takes the correctly rounded square, which
    is what every engine returns when the square is representable. *)
Definition Math_pow2 (a : number) : number := a * a.

(** The values a condition can hold in the modelled code, and ECMAScript's
    [ToBoolean]: every object, an empty Array included, is truthy. *)
Inductive value (A : Type) : Type :=
| Undefined : value A
| Boolean : bool -> value A
| Number : number -> value A
| Array : list A -> value A.

Arguments Undefined {A}.
Arguments Boolean {A} _.
Arguments Number {A} _.
Arguments Array {A} _.

Definition ToBoolean {A} (v : value A) : bool :=
  match v with
  | Undefined => false
  | Boolean b => b
  | Number n => negb (isNaN n || strict_eq n 0)
  | Array _ => true
  end.

End JS.

Import JS.
Open Scope float_scope.

(** ** lib/utils *)

(** [minMax(first, second)]: the pair [min, max]. *)
Definition minMax (first second : number) : number * number :=
  (Math_min first second, Math_max first second).

(** Modelled from the spec: [clamp(value, min, max)] of [lib/utils] is
    imported by the geometry kernel but its body is not part of the sources;
    the spec describes clamping as [max(min, min(max, self))] and the test
    suite expects [clamp(5, 0, 4) = 4]. *)
Definition clamp (value min max : number) : number :=
  Math_max min (Math_min max value).

(** ** Vector2D *)

Record Vector2D : Type := mkVector2D { x : number; y : number }.

Module V.

Definition epsilon : number := 0.001.

Definition area (this : Vector2D) : number := x this * y this.

Definition magnitude (this : Vector2D) : number :=
  Math_sqrt (x this * x this + y this * y this).

Definition magnitudeSquared (this : Vector2D) : number :=
  x this * x this + y this * y this.

Definition normalized (this : Vector2D) : Vector2D :=
  let rad := 1 / magnitude this in
  mkVector2D (x this * rad) (y this * rad).

Definition perp (this : Vector2D) : Vector2D :=
  mkVector2D (y this * -1) (x this).

Definition max (this v : Vector2D) : Vector2D :=
  mkVector2D (Math_max (x this) (x v)) (Math_max (y this) (y v)).

Definition min (this v : Vector2D) : Vector2D :=
  mkVector2D (Math_min (x this) (x v)) (Math_min (y this) (y v)).

Definition dot (this v : Vector2D) : number :=
  x this * x v + y this * y v.

Definition cross (this v : Vector2D) : number :=
  x this * x v - y this * y v.

(* [cartesian] and [polar] call [Math.cos], [Math.sin] and [Math.atan2],
   whose values ECMAScript leaves to the approximation of the engine: they
   are no binary64 operations and are not embedded. *)

Definition clamp (this min_ max_ : Vector2D) : Vector2D :=
  min (max this min_) max_.

(** The arithmetic methods take [Vector2D | number]; each branch of the
    [typeof v === "number"] test is a function of its own here, the
    [_n] one being the scalar branch. *)
Definition multiply (this v : Vector2D) : Vector2D :=
  mkVector2D (x this * x v) (y this * y v).
Definition multiply_n (this : Vector2D) (v : number) : Vector2D :=
  mkVector2D (x this * v) (y this * v).

Definition addBy (this v : Vector2D) : Vector2D :=
  mkVector2D (x this + x v) (y this + y v).
Definition addBy_n (this : Vector2D) (v : number) : Vector2D :=
  mkVector2D (x this + v) (y this + v).

Definition subtractBy (this v : Vector2D) : Vector2D :=
  mkVector2D (x this - x v) (y this - y v).
Definition subtractBy_n (this : Vector2D) (v : number) : Vector2D :=
  mkVector2D (x this - v) (y this - v).

Definition subtractFrom (this v : Vector2D) : Vector2D :=
  mkVector2D (x v - x this) (y v - y this).

Definition reflect (this normal : Vector2D) : Vector2D :=
  subtractBy this (multiply_n normal (2.0 * dot this normal)).

Definition eq (this v : Vector2D) : bool :=
  strict_eq (x this) (x v) && strict_eq (y this) (y v).

Definition neq (this v : Vector2D) : bool :=
  strict_eq (x this) (x v) && strict_eq (y this) (y v).

(** [Vector2D.filterDuplicateVectors]: a [reduce] that keeps a vector
    unless an already kept one is within [epsilon] of it on both axes. *)
Definition is_duplicate (currV p : Vector2D) : bool :=
  num_lt (Math_abs (x currV - x p)) epsilon &&
  num_lt (Math_abs (y currV - y p)) epsilon.

Definition filterDuplicateVectors (vectors : list Vector2D) : list Vector2D :=
  fold_left
    (fun prev currV =>
       if existsb (is_duplicate currV) prev then prev else prev ++ [currV])
    vectors [].

End V.

(** ** Shapes

    The six classes that extend [Shape].  A method of the source that
    dispatches on the dynamic class of its argument ([shape.isPoint()],
    [shape.isLine()], ...) is a [match] on [Shape]; a call whose receiver and
    argument classes are known where it is written names the private method
    that the dispatch reaches. *)

Record Point : Type := mkPoint { Point_position : Vector2D }.
Record Line : Type := mkLine { start : Vector2D; end_ : Vector2D }.
Record Rectangle : Type :=
  mkRectangle { position : Vector2D; dimensions : Vector2D }.
Record Circle : Type :=
  mkCircle { Circle_position : Vector2D; radius : number }.
Record Ray : Type := mkRay { origin : Vector2D; direction : Vector2D }.
(** [Triangle.position] is the array [[top, right, left]]. *)
Record Triangle : Type :=
  mkTriangle { position0 : Vector2D; position1 : Vector2D;
               position2 : Vector2D }.

Inductive Shape : Type :=
| SPoint (s : Point)
| SLine (s : Line)
| SRectangle (s : Rectangle)
| STriangle (s : Triangle)
| SCircle (s : Circle)
| SRay (s : Ray).

(** *** Line *)

Definition Line_vector (this : Line) : Vector2D :=
  V.subtractBy (end_ this) (start this).

Definition Line_side (this : Line) (point : Vector2D) : number :=
  let d := V.cross (Line_vector this) (V.subtractFrom (start this) point) in
  if num_lt d 0 then -1 else if num_gt d 0 then 1 else 0.

Definition Line_closestPoint (this : Line) (shape : Point) : Vector2D :=
  let len := Line_vector this in
  let unitDis :=
    clamp
      (V.dot len (V.subtractBy (Point_position shape) (start this)) /
       V.magnitudeSquared len)
      0.0 1.0 in
  V.addBy (start this) (V.multiply_n len unitDis).

Definition Line_overlapsLine (this shape : Line) : bool :=
  let distance :=
    (y (end_ shape) - y (start shape)) * (x (end_ this) - x (start this)) -
    (x (end_ shape) - x (start shape)) * (y (end_ this) - y (start this)) in
  let unitA :=
    ((x (end_ shape) - x (start shape)) * (y (start this) - y (start shape)) -
     (y (end_ shape) - y (start shape)) * (x (start this) - x (start shape)))
    / distance in
  let unitB :=
    ((x (end_ this) - x (start this)) * (y (start this) - y (start shape)) -
     (y (end_ this) - y (start this)) * (x (start this) - x (start shape)))
    / distance in
  num_ge unitA 0 && num_le unitA 1 && num_ge unitB 0 && num_le unitB 1.

Definition Line_containsPoint (this : Line) (shape : Point) : bool :=
  let d :=
    (x (Point_position shape) - x (start this)) *
      (y (end_ this) - y (start this)) -
    (y (Point_position shape) - y (start this)) *
      (x (end_ this) - x (start this)) in
  if num_lt (Math_abs d) V.epsilon then
    let unit :=
      V.dot (Line_vector this)
            (V.subtractBy (Point_position shape) (start this)) /
      V.magnitudeSquared (Line_vector this) in
    num_ge unit 0.0 && num_le unit 1.0
  else false.

(** [this.overlaps(point)] reaches [#overlapsPoint], which returns
    [this.contains(point)]. *)
Definition Line_overlapsPoint (this : Line) (shape : Point) : bool :=
  Line_containsPoint this shape.

Definition Line_containsLine (this shape : Line) : bool :=
  Line_overlapsPoint this (mkPoint (start shape)) &&
  Line_overlapsPoint this (mkPoint (end_ shape)).

Definition Line_contains (this : Line) (shape : Shape) : bool :=
  match shape with
  | SPoint p => Line_containsPoint this p
  | SLine l => Line_containsLine this l
  | SRectangle _ => false
  | STriangle _ => false
  | SCircle _ => false
  | SRay _ => false
  end.

Definition Line_intersectsPoint (this : Line) (shape : Point)
  : list Vector2D :=
  if Line_containsPoint this shape then [Point_position shape] else [].

Definition Line_intersectsLine (this shape : Line) : list Vector2D :=
  let rd := V.cross (Line_vector this) (Line_vector shape) in
  if strict_eq rd 0 then []
  else
    let inverseRd := 1.0 / rd in
    let rn :=
      ((x (end_ shape) - x (start shape)) * (y (start this) - y (start shape))
       - (y (end_ shape) - y (start shape)) *
           (x (start this) - x (start shape)))
      * inverseRd in
    let sn :=
      ((x (end_ this) - x (start this)) * (y (start this) - y (start shape))
       - (y (end_ this) - y (start this)) * (x (start this) - x (start shape)))
      * inverseRd in
    if num_lt rn 0.0 || num_gt rn 1.0 || num_lt sn 0.0 || num_gt sn 1.0 then []
    else [V.multiply (V.addBy_n (start this) rn) (Line_vector this)].

(** *** Rectangle: sides and containment *)

Definition Rectangle_top (this : Rectangle) : Line :=
  mkLine (position this)
         (mkVector2D (x (position this) + x (dimensions this))
                     (y (position this))).

Definition Rectangle_bottom (this : Rectangle) : Line :=
  mkLine (mkVector2D (x (position this))
                     (y (position this) + y (dimensions this)))
         (V.addBy (position this) (dimensions this)).

Definition Rectangle_left (this : Rectangle) : Line :=
  mkLine (position this)
         (mkVector2D (x (position this))
                     (y (position this) + y (dimensions this))).

Definition Rectangle_right (this : Rectangle) : Line :=
  mkLine (mkVector2D (x (position this) + x (dimensions this))
                     (y (position this)))
         (V.addBy (position this) (dimensions this)).

(** [side(index)] selects on [index & 0b11]; the [throw] after the four
    tests is dead code, since the masked index is at most 3
    ([Rectangle_side_index] below), and the last arm stands for the test
    against 3.  The index is a natural number, as the loops over
    [sideCount()] pass it; [&] and [%] agree with [Nat.land] and [mod] on
    the naturals that binary64 holds exactly, those up to 2^53. *)
Definition Rectangle_side (this : Rectangle) (index : nat) : Line :=
  match Nat.land index 3 with
  | 0%nat => Rectangle_top this
  | 1%nat => Rectangle_right this
  | 2%nat => Rectangle_bottom this
  | _ => Rectangle_left this
  end.

Definition Rectangle_sideCount (this : Rectangle) : nat := 4.

Definition Triangle_position (this : Triangle) (i : nat) : Vector2D :=
  match i with
  | 0%nat => position0 this
  | 1%nat => position1 this
  | _ => position2 this
  end.

Definition Triangle_side (this : Triangle) (index : nat) : Line :=
  mkLine (Triangle_position this (index mod 3))
         (Triangle_position this ((index + 1) mod 3)).

Definition Triangle_sideCount (this : Triangle) : nat := 3.

Definition Rectangle_containsPoint (this : Rectangle) (shape : Point) : bool :=
  negb (num_lt (x (Point_position shape)) (x (position this)) ||
        num_lt (y (Point_position shape)) (y (position this)) ||
        num_gt (x (Point_position shape))
           (x (position this) + x (dimensions this)) ||
        num_gt (y (Point_position shape))
           (y (position this) + y (dimensions this))).

Definition Rectangle_containsLine (this : Rectangle) (shape : Line) : bool :=
  Rectangle_containsPoint this (mkPoint (start shape)) &&
  Rectangle_containsPoint this (mkPoint (end_ shape)).

Definition Rectangle_containsRectangle (this shape : Rectangle) : bool :=
  num_ge (x (position shape)) (x (position this)) &&
  num_le (x (position shape) + x (dimensions shape))
     (x (position this) + x (dimensions this)) &&
  num_ge (y (position shape)) (y (position this)) &&
  num_le (y (position shape) + y (dimensions shape))
     (y (position this) + y (dimensions this)).

Definition Rectangle_containsTriangle (this : Rectangle) (shape : Triangle)
  : bool :=
  Rectangle_containsLine this (Triangle_side shape 0) &&
  Rectangle_containsLine this (Triangle_side shape 1) &&
  Rectangle_containsLine this (Triangle_side shape 2).

Definition Rectangle_containsCircle (this : Rectangle) (shape : Circle)
  : bool :=
  num_le (x (position this) + radius shape) (x (Circle_position shape)) &&
  num_le (x (Circle_position shape))
     (x (position this) + x (dimensions this) - radius shape) &&
  num_le (y (position this) + radius shape) (y (Circle_position shape)) &&
  num_le (y (Circle_position shape))
     (y (position this) + y (dimensions this) - radius shape).

Definition Rectangle_containsRay (this : Rectangle) (_ : Ray) : bool := false.

Definition Rectangle_contains (this : Rectangle) (shape : Shape) : bool :=
  match shape with
  | SPoint p => Rectangle_containsPoint this p
  | SLine l => Rectangle_containsLine this l
  | SRectangle r => Rectangle_containsRectangle this r
  | STriangle t => Rectangle_containsTriangle this t
  | SCircle c => Rectangle_containsCircle this c
  | SRay r => Rectangle_containsRay this r
  end.

Definition Rectangle_overlapsRectangle (this shape : Rectangle) : bool :=
  num_le (x (position this)) (x (position shape) + x (dimensions shape)) &&
  num_ge (x (position this) + x (dimensions this)) (x (position shape)) &&
  num_le (y (position this)) (y (position shape) + y (dimensions shape)) &&
  num_ge (y (position this) + y (dimensions this)) (y (position shape)).

(** *** Ray *)

Definition Ray_containsPoint (this : Ray) (shape : Point) : bool :=
  let originToPoint := V.subtractBy (Point_position shape) (origin this) in
  let dotProduct := V.dot originToPoint (direction this) in
  if num_lt dotProduct 0 then false
  else
    let projection :=
      mkVector2D (x (direction this) * dotProduct)
                 (y (direction this) * dotProduct) in
    let distance :=
      Math_sqrt (Math_pow2 (x projection - x originToPoint) +
                 Math_pow2 (y projection - y originToPoint)) in
    num_lt distance V.epsilon.

Definition Ray_contains (this : Ray) (shape : Shape) : bool :=
  match shape with
  | SPoint p => Ray_containsPoint this p
  | _ => false
  end.

Definition Ray_intersectsPoint (this : Ray) (shape : Point) : list Vector2D :=
  let line := mkLine (origin this) (V.addBy (origin this) (direction this)) in
  if num_lt (Math_abs (Line_side line (Point_position shape))) V.epsilon
  then [Point_position shape] else [].

Definition Ray_intersectsLine (this : Ray) (shape : Line) : list Vector2D :=
  let lineDir := Line_vector shape in
  let lineToOrigin := V.subtractBy (start shape) (origin this) in
  let crossProduct1 := V.cross (direction this) lineDir in
  let crossProduct2 := V.cross lineToOrigin lineDir in
  if strict_eq crossProduct1 0 then
    if strict_eq crossProduct2 0 then [origin this] else []
  else
    let crossProduct3 := V.cross lineToOrigin (direction this) in
    let t1 := crossProduct2 / crossProduct1 in
    let t2 := crossProduct3 / crossProduct1 in
    if num_ge t1 0 && num_ge t2 0 && num_le t2 1
    then [V.multiply_n (V.addBy (origin this) (direction this)) t1]
    else [].

Definition Ray_intersectsRectangle (this : Ray) (shape : Rectangle)
  : list Vector2D :=
  V.filterDuplicateVectors
    (flat_map (fun i => Ray_intersectsLine this (Rectangle_side shape i))
              (seq 0 (Rectangle_sideCount shape))).

Definition Ray_intersectsTriangle (this : Ray) (shape : Triangle)
  : list Vector2D :=
  V.filterDuplicateVectors
    (flat_map (fun i => Ray_intersectsLine this (Triangle_side shape i))
              (seq 0 (Triangle_sideCount shape))).

Definition Ray_intersectsCircle (this : Ray) (shape : Circle)
  : list Vector2D :=
  let A := V.magnitudeSquared (direction this) in
  let B :=
    2.0 * (V.dot (origin this) (direction this) -
           V.dot (Circle_position shape) (direction this)) in
  let C :=
    V.magnitudeSquared (Circle_position shape) +
    V.magnitudeSquared (origin this) -
    2.0 * x (Circle_position shape) * x (origin this) -
    2.0 * y (Circle_position shape) * y (origin this) -
    Math_pow2 (radius shape) in
  let D := Math_pow2 B - 4.0 * A * C in
  if num_lt D 0.0 then []
  else
    let sqrtD := Math_sqrt D in
    let s1 := (B * -1 + sqrtD) / (2.0 * A) in
    let s2 := (B * -1 - sqrtD) / (2.0 * A) in
    if num_lt s1 0 && num_lt s2 0 then []
    else if num_lt s1 0
    then [V.addBy (origin this) (V.multiply_n (direction this) s2)]
    else if num_lt s2 0
    then [V.addBy (origin this) (V.multiply_n (direction this) s1)]
    else
      let '(minS, maxS) := minMax s1 s2 in
      [V.addBy (origin this) (V.multiply_n (direction this) minS);
       V.addBy (origin this) (V.multiply_n (direction this) maxS)].

Definition Ray_intersectsRay (this shape : Ray) : list Vector2D :=
  let originToOrigin := V.subtractBy (origin shape) (origin this) in
  let crossProduct1 := V.cross (direction this) (direction shape) in
  let crossProduct2 := V.cross originToOrigin (direction shape) in
  if strict_eq crossProduct1 0 then
    if strict_eq crossProduct2 0 then [origin this] else []
  else
    let crossProduct3 := V.cross originToOrigin (direction this) in
    let t1 := crossProduct2 / crossProduct1 in
    let t2 := crossProduct3 / crossProduct1 in
    if num_ge t1 0 && num_ge t2 0
    then [V.addBy (origin this) (V.multiply_n (direction this) t1)]
    else [].

Definition Ray_intersects (this : Ray) (shape : Shape) : list Vector2D :=
  match shape with
  | SPoint p => Ray_intersectsPoint this p
  | SLine l => Ray_intersectsLine this l
  | SRectangle r => Ray_intersectsRectangle this r
  | STriangle t => Ray_intersectsTriangle this t
  | SCircle c => Ray_intersectsCircle this c
  | SRay r => Ray_intersectsRay this r
  end.

(** *** Circle *)

Definition Circle_containsPoint (this : Circle) (shape : Point) : bool :=
  num_le (V.magnitudeSquared
        (V.subtractBy (Circle_position this) (Point_position shape)))
     (Math_pow2 (radius this)).

(** [this.overlaps(point)] reaches [#overlapsPoint], which returns
    [this.contains(point)]. *)
Definition Circle_overlapsPoint (this : Circle) (shape : Point) : bool :=
  Circle_containsPoint this shape.

Definition Circle_containsLine (this : Circle) (shape : Line) : bool :=
  Circle_containsPoint this (mkPoint (start shape)) &&
  Circle_containsPoint this (mkPoint (end_ shape)).

Definition Circle_containsRectangle (this : Circle) (shape : Rectangle)
  : bool :=
  Circle_containsPoint this (mkPoint (position shape)) &&
  Circle_containsPoint this
    (mkPoint (mkVector2D (x (position shape) + y (position shape))
                         (y (position shape)))) &&
  Circle_containsPoint this
    (mkPoint (mkVector2D (x (position shape))
                         (y (position shape) + y (dimensions shape)))) &&
  Circle_containsPoint this
    (mkPoint (V.addBy (position shape) (dimensions shape))).

Definition Circle_containsTriangle (this : Circle) (shape : Triangle)
  : bool :=
  Circle_containsPoint this (mkPoint (Triangle_position shape 0)) &&
  Circle_containsPoint this (mkPoint (Triangle_position shape 1)) &&
  Circle_containsPoint this (mkPoint (Triangle_position shape 2)).

Definition Circle_containsCircle (this shape : Circle) : bool :=
  num_le (Math_sqrt
        (Math_pow2 (x (Circle_position shape) - x (Circle_position this)) +
         Math_pow2 (y (Circle_position shape) - y (Circle_position this)))
      + radius shape)
     (radius this).

Definition Circle_contains (this : Circle) (shape : Shape) : bool :=
  match shape with
  | SPoint p => Circle_containsPoint this p
  | SLine l => Circle_containsLine this l
  | SRectangle r => Circle_containsRectangle this r
  | STriangle t => Circle_containsTriangle this t
  | SCircle c => Circle_containsCircle this c
  | SRay _ => false
  end.

Definition Circle_intersectsPoint (this : Circle) (shape : Point)
  : list Vector2D :=
  if num_le (Math_abs
           (V.magnitudeSquared
              (V.subtractBy (Point_position shape) (Circle_position this)) -
            Math_pow2 (radius this)))
        V.epsilon
  then [Point_position shape] else [].

Definition Circle_intersectsLine (this : Circle) (shape : Line)
  : list Vector2D :=
  let closestPoint := Line_closestPoint shape (mkPoint (Circle_position this)) in
  if negb (Circle_overlapsPoint this (mkPoint closestPoint)) then []
  else
    let d := Line_vector shape in
    let unitLine :=
      V.dot d (V.subtractBy (Circle_position this) (start shape)) /
      V.magnitudeSquared d in
    let closestPointToLine := V.multiply (V.addBy_n (start shape) unitLine) d in
    let distToLine :=
      V.magnitudeSquared
        (V.subtractBy (Circle_position this) closestPointToLine) in
    if num_lt (Math_abs (distToLine - Math_pow2 (radius this))) V.epsilon
    then [closestPointToLine]
    else
      let length := Math_sqrt (Math_pow2 (radius this) - distToLine) in
      let p1 :=
        V.multiply_n
          (V.addBy closestPointToLine (V.normalized (Line_vector shape)))
          length in
      let p2 :=
        V.multiply_n
          (V.subtractBy closestPointToLine (V.normalized (Line_vector shape)))
          length in
      let intersections := [] in
      let intersections :=
        if num_lt (V.magnitudeSquared
                 (V.subtractBy p1 (Line_closestPoint shape (mkPoint p1))))
              (Math_pow2 V.epsilon)
        then intersections ++ [p1] else intersections in
      let intersections :=
        if num_lt (V.magnitudeSquared
                 (V.subtractBy p2 (Line_closestPoint shape (mkPoint p2))))
              (Math_pow2 V.epsilon)
        then intersections ++ [p2] else intersections in
      V.filterDuplicateVectors intersections.

Definition Circle_intersectsRectangle (this : Circle) (shape : Rectangle)
  : list Vector2D :=
  flat_map (fun i => Circle_intersectsLine this (Rectangle_side shape i))
           (seq 0 (Rectangle_sideCount shape)).

Definition Circle_intersectsCircle (this shape : Circle) : list Vector2D :=
  if V.eq (Circle_position this) (Circle_position shape) then []
  else
    let between :=
      V.subtractBy (Circle_position shape) (Circle_position this) in
    let dist2 := V.magnitudeSquared between in
    let radiusSum := radius this + radius shape in
    if num_gt dist2 (Math_pow2 radiusSum) then []
    else if Circle_containsCircle this shape ||
            Circle_containsCircle shape this then []
    else if strict_eq dist2 radiusSum then
      [V.multiply_n (V.addBy (Circle_position this) (V.normalized between))
                    (radius this)]
    else
      let dist := Math_sqrt dist2 in
      let ccDist :=
        (dist2 + Math_pow2 (radius this) - Math_pow2 (radius shape)) /
        (2 * dist) in
      let chordCenter :=
        V.multiply_n
          (V.addBy (Circle_position this) (V.normalized between)) ccDist in
      let halfChord :=
        V.multiply_n
          (V.perp (V.normalized between))
          (Math_sqrt (Math_pow2 (radius this) - Math_pow2 ccDist)) in
      [V.addBy chordCenter halfChord; V.subtractBy chordCenter halfChord].

(** [Triangle.#intersectsCircle], which [Circle.#intersectsTriangle]
    delegates to: the circle is intersected with each side. *)
Definition Triangle_intersectsCircle (this : Triangle) (shape : Circle)
  : list Vector2D :=
  V.filterDuplicateVectors
    (flat_map (fun i => Circle_intersectsLine shape (Triangle_side this i))
              (seq 0 (Triangle_sideCount this))).

Definition Circle_intersects (this : Circle) (shape : Shape)
  : list Vector2D :=
  match shape with
  | SPoint p => Circle_intersectsPoint this p
  | SLine l => Circle_intersectsLine this l
  | SRectangle r => Circle_intersectsRectangle this r
  | STriangle t => Triangle_intersectsCircle t this
  | SCircle c => Circle_intersectsCircle this c
  | SRay r => Ray_intersectsCircle r this
  end.

(** *** Triangle *)

(** [#closestPoint] reuses one [Line] object: it is built on vertices 0
    and 1, then its [end] and then its [start] are reassigned. *)
Definition Triangle_closestPoint (this : Triangle) (shape : Point)
  : Vector2D :=
  let line := mkLine (Triangle_position this 0) (Triangle_position this 1) in
  let p0 := Line_closestPoint line shape in
  let d0 := V.magnitudeSquared (V.subtractBy p0 (Point_position shape)) in
  let line := mkLine (start line) (Triangle_position this 2) in
  let p1 := Line_closestPoint line shape in
  let d1 := V.magnitudeSquared (V.subtractBy p1 (Point_position shape)) in
  let line := mkLine (Triangle_position this 1) (end_ line) in
  let p2 := Line_closestPoint line shape in
  let d2 := V.magnitudeSquared (V.subtractBy p2 (Point_position shape)) in
  if num_le d0 d1 && num_le d0 d2 then p0
  else if num_le d1 d0 && num_le d1 d2 then p1
  else p2.

Definition Triangle_containsPoint (this : Triangle) (shape : Point) : bool :=
  let p0 := Triangle_position this 0 in
  let p1 := Triangle_position this 1 in
  let p2 := Triangle_position this 2 in
  let s_ := Point_position shape in
  let A :=
    0.5 *
    (y p1 * -1 * x p2 + y p0 * (x p1 * -1 + x p2) + x p0 * (y p1 - y p2) +
     x p1 * y p2) in
  let sign := if num_lt A 0 then -1 else 1 in
  let s :=
    (y p0 * x p2 - x p0 * y p2 + (y p2 - y p0) * x s_ +
     (x p0 - x p2) * y s_) * sign in
  let v :=
    (x p0 * y p1 - y p0 * x p1 + (y p0 - y p1) * x s_ +
     (x p1 - x p0) * y s_) * sign in
  num_ge s 0 && num_ge v 0 && num_le (s + v) (2 * A * sign).

Definition Triangle_containsLine (this : Triangle) (shape : Line) : bool :=
  Triangle_containsPoint this (mkPoint (start shape)) &&
  Triangle_containsPoint this (mkPoint (end_ shape)).

Definition Triangle_containsRectangle (this : Triangle) (shape : Rectangle)
  : bool :=
  Triangle_containsPoint this (mkPoint (position shape)) &&
  Triangle_containsPoint this
    (mkPoint (V.addBy (position shape) (dimensions shape))) &&
  Triangle_containsPoint this
    (mkPoint (mkVector2D (x (position shape) + x (dimensions shape))
                         (y (position shape)))) &&
  Triangle_containsPoint this
    (mkPoint (mkVector2D (x (position shape))
                         (y (position shape) + y (dimensions shape)))).

Definition Triangle_containsTriangle (this shape : Triangle) : bool :=
  Triangle_containsPoint this (mkPoint (Triangle_position shape 0)) &&
  Triangle_containsPoint this (mkPoint (Triangle_position shape 1)) &&
  Triangle_containsPoint this (mkPoint (Triangle_position shape 2)).

Definition Triangle_containsCircle (this : Triangle) (shape : Circle)
  : bool :=
  Triangle_containsPoint this (mkPoint (Circle_position shape)) &&
  num_ge (V.magnitudeSquared
        (V.subtractBy (Circle_position shape)
           (Triangle_closestPoint this (mkPoint (Circle_position shape)))))
     (Math_pow2 (radius shape)).

Definition Triangle_contains (this : Triangle) (shape : Shape) : bool :=
  match shape with
  | SPoint p => Triangle_containsPoint this p
  | SLine l => Triangle_containsLine this l
  | SRectangle r => Triangle_containsRectangle this r
  | STriangle t => Triangle_containsTriangle this t
  | SCircle c => Triangle_containsCircle this c
  | SRay _ => false
  end.

Definition Triangle_intersectsPoint (this : Triangle) (shape : Point)
  : list Vector2D :=
  if existsb (fun i => Line_containsPoint (Triangle_side this i) shape)
             (seq 0 (Triangle_sideCount this))
  then [Point_position shape] else [].

Definition Triangle_intersectsLine (this : Triangle) (shape : Line)
  : list Vector2D :=
  V.filterDuplicateVectors
    (flat_map (fun i => Line_intersectsLine (Triangle_side this i) shape)
              (seq 0 (Triangle_sideCount this))).

Definition Triangle_intersectsRectangle (this : Triangle) (shape : Rectangle)
  : list Vector2D :=
  V.filterDuplicateVectors
    (flat_map (fun i => Triangle_intersectsLine this (Rectangle_side shape i))
              (seq 0 (Rectangle_sideCount shape))).

Definition Triangle_intersectsTriangle (this shape : Triangle)
  : list Vector2D :=
  V.filterDuplicateVectors
    (flat_map (fun i => Triangle_intersectsLine this (Triangle_side shape i))
              (seq 0 (Triangle_sideCount shape))).

Definition Triangle_intersectsRay (this : Triangle) (shape : Ray)
  : list Vector2D :=
  V.filterDuplicateVectors
    (flat_map (fun i => Ray_intersectsLine shape (Triangle_side this i))
              (seq 0 (Triangle_sideCount this))).

Definition Triangle_intersects (this : Triangle) (shape : Shape)
  : list Vector2D :=
  match shape with
  | SPoint p => Triangle_intersectsPoint this p
  | SLine l => Triangle_intersectsLine this l
  | SRectangle r => Triangle_intersectsRectangle this r
  | STriangle t => Triangle_intersectsTriangle this t
  | SCircle c => Triangle_intersectsCircle this c
  | SRay r => Triangle_intersectsRay this r
  end.

(** *** Rectangle: intersection points *)

Definition Rectangle_intersectsPoint (this : Rectangle) (shape : Point)
  : list Vector2D :=
  if existsb (fun i => Line_containsPoint (Rectangle_side this i) shape)
             (seq 0 (Rectangle_sideCount this))
  then [Point_position shape] else [].

Definition Rectangle_intersectsLine (this : Rectangle) (shape : Line)
  : list Vector2D :=
  V.filterDuplicateVectors
    (flat_map (fun i => Line_intersectsLine (Rectangle_side this i) shape)
              (seq 0 (Rectangle_sideCount this))).

Definition Rectangle_intersectsRectangle (this shape : Rectangle)
  : list Vector2D :=
  V.filterDuplicateVectors
    (flat_map (fun i => Rectangle_intersectsLine this (Rectangle_side shape i))
              (seq 0 (Rectangle_sideCount shape))).

Definition Rectangle_intersectsRay (this : Rectangle) (_ : Ray)
  : list Vector2D := [].

Definition Rectangle_intersects (this : Rectangle) (shape : Shape)
  : list Vector2D :=
  match shape with
  | SPoint p => Rectangle_intersectsPoint this p
  | SLine l => Rectangle_intersectsLine this l
  | SRectangle r => Rectangle_intersectsRectangle this r
  | STriangle t => Triangle_intersectsRectangle t this
  | SCircle c => Circle_intersectsRectangle c this
  | SRay r => Rectangle_intersectsRay this r
  end.

(** *** Line and Point: the public dispatchers *)

Definition Line_intersects (this : Line) (shape : Shape) : list Vector2D :=
  match shape with
  | SPoint p => Line_intersectsPoint this p
  | SLine l => Line_intersectsLine this l
  | SRectangle r => Rectangle_intersectsLine r this
  | STriangle t => Triangle_intersectsLine t this
  | SCircle c => Circle_intersectsLine c this
  | SRay r => Ray_intersectsLine r this
  end.

Definition Point_containsPoint (this shape : Point) : bool :=
  num_lt (V.magnitudeSquared
        (V.subtractBy (Point_position this) (Point_position shape)))
     V.epsilon.

Definition Point_contains (this : Point) (shape : Shape) : bool :=
  match shape with
  | SPoint p => Point_containsPoint this p
  | _ => false
  end.

(** [Point.intersects] logs "unimplemented" and returns the empty array. *)
Definition Point_intersects (this : Point) (shape : Shape) : list Vector2D :=
  [].

(** *** The abstract methods of [Shape] *)

Definition Shape_contains (this shape : Shape) : bool :=
  match this with
  | SPoint s => Point_contains s shape
  | SLine s => Line_contains s shape
  | SRectangle s => Rectangle_contains s shape
  | STriangle s => Triangle_contains s shape
  | SCircle s => Circle_contains s shape
  | SRay s => Ray_contains s shape
  end.

Definition Shape_intersects (this shape : Shape) : list Vector2D :=
  match this with
  | SPoint s => Point_intersects s shape
  | SLine s => Line_intersects s shape
  | SRectangle s => Rectangle_intersects s shape
  | STriangle s => Triangle_intersects s shape
  | SCircle s => Circle_intersects s shape
  | SRay s => Ray_intersects s shape
  end.

(** ** QuadTree *)

Record QuadTreeNode : Type := mkQuadTreeNode { shape : Shape }.

Record QuadTreeChildrenBoundaries : Type :=
  mkChildrenBoundaries {
    b_northeast : Rectangle;
    b_northwest : Rectangle;
    b_southwest : Rectangle;
    b_southeast : Rectangle }.

(** A tree object with its five private fields; [#children] is
    [undefined | QuadTreeChildren], here [None] or [Some], and [#depthLayer]
    is a number like any other: the constructor stores the one it is
    given, whatever it is. *)
Inductive QuadTree : Type :=
| mkQuadTree (boundary : Rectangle) (depthLayer : number)
             (children : option QuadTreeChildren)
             (childrenBoundaries : QuadTreeChildrenBoundaries)
             (nodes : list QuadTreeNode)
with QuadTreeChildren : Type :=
| mkChildren (northeast northwest southwest southeast : QuadTree).

Definition boundary (t : QuadTree) : Rectangle :=
  let '(mkQuadTree b _ _ _ _) := t in b.
Definition depthLayer (t : QuadTree) : number :=
  let '(mkQuadTree _ d _ _ _) := t in d.
Definition children (t : QuadTree) : option QuadTreeChildren :=
  let '(mkQuadTree _ _ c _ _) := t in c.
Definition childrenBoundaries (t : QuadTree) : QuadTreeChildrenBoundaries :=
  let '(mkQuadTree _ _ _ cb _) := t in cb.
Definition nodes (t : QuadTree) : list QuadTreeNode :=
  let '(mkQuadTree _ _ _ _ ns) := t in ns.

Definition northeast (c : QuadTreeChildren) : QuadTree :=
  let '(mkChildren ne _ _ _) := c in ne.
Definition northwest (c : QuadTreeChildren) : QuadTree :=
  let '(mkChildren _ nw _ _) := c in nw.
Definition southwest (c : QuadTreeChildren) : QuadTree :=
  let '(mkChildren _ _ sw _) := c in sw.
Definition southeast (c : QuadTreeChildren) : QuadTree :=
  let '(mkChildren _ _ _ se) := c in se.

Definition MAX_DEPTH : number := 8.

Definition calulateChildBoundaries (x y width height : number)
  : QuadTreeChildrenBoundaries :=
  let halfWidth := width / 2 in
  let halfHeight := height / 2 in
  let neBoundary :=
    mkRectangle (mkVector2D (x + halfWidth) y)
                (mkVector2D halfWidth halfHeight) in
  let nwBoundary :=
    mkRectangle (mkVector2D x y) (mkVector2D halfWidth halfHeight) in
  let swBoundary :=
    mkRectangle (mkVector2D x (y + halfHeight))
                (mkVector2D halfWidth halfHeight) in
  let seBoundary :=
    mkRectangle (mkVector2D (x + halfWidth) (y + halfHeight))
                (mkVector2D halfWidth halfHeight) in
  mkChildrenBoundaries neBoundary nwBoundary swBoundary seBoundary.

(** [new QuadTree(boundary, depthLayer)]; [QuadTree_default] is the call
    that leaves [depthLayer] to its default. *)
Definition QuadTree_new (boundary : Rectangle) (depthLayer : number)
  : QuadTree :=
  mkQuadTree boundary depthLayer None
    (calulateChildBoundaries
       (x (position boundary)) (y (position boundary))
       (x (dimensions boundary)) (y (dimensions boundary)))
    [].

Definition QuadTree_default (boundary : Rectangle) : QuadTree :=
  QuadTree_new boundary 0.

Definition subdivide (this : QuadTree) : QuadTree :=
  match children this with
  | Some _ => this
  | None =>
    if num_ge (depthLayer this + 1) MAX_DEPTH then this
    else
      let depthLayer_ := depthLayer this in
      mkQuadTree (boundary this) (depthLayer this)
        (Some (mkChildren
           (QuadTree_new (b_northeast (childrenBoundaries this))
                         (depthLayer_ + 1))
           (QuadTree_new (b_northwest (childrenBoundaries this))
                         (depthLayer_ + 1))
           (QuadTree_new (b_southwest (childrenBoundaries this))
                         (depthLayer_ + 1))
           (QuadTree_new (b_southeast (childrenBoundaries this))
                         (depthLayer_ + 1))))
        (childrenBoundaries this) (nodes this)
  end.

(** The four quadrants, in the order in which [insert] tries them. *)
Inductive Quadrant : Type := NE | NW | SW | SE.

Definition quadrantBoundary (q : Quadrant) (cb : QuadTreeChildrenBoundaries)
  : Rectangle :=
  match q with
  | NE => b_northeast cb
  | NW => b_northwest cb
  | SW => b_southwest cb
  | SE => b_southeast cb
  end.

Definition child (q : Quadrant) (c : QuadTreeChildren) : QuadTree :=
  match q with
  | NE => northeast c
  | NW => northwest c
  | SW => southwest c
  | SE => southeast c
  end.

Definition setChild (q : Quadrant) (c : QuadTreeChildren) (c' : QuadTree)
  : QuadTreeChildren :=
  match q with
  | NE => mkChildren c' (northwest c) (southwest c) (southeast c)
  | NW => mkChildren (northeast c) c' (southwest c) (southeast c)
  | SW => mkChildren (northeast c) (northwest c) c' (southeast c)
  | SE => mkChildren (northeast c) (northwest c) (southwest c) c'
  end.

(** The tree after the method call [this.#children.q.insert(node)] has
    mutated the child in place and left it as [c']. *)
Definition withChild (q : Quadrant) (this : QuadTree) (c' : QuadTree)
  : QuadTree :=
  match children this with
  | None => this
  | Some c =>
    mkQuadTree (boundary this) (depthLayer this) (Some (setChild q c c'))
               (childrenBoundaries this) (nodes this)
  end.

(** One block of [insert],
    [if (this.#childrenBoundaries.q.contains(node.shape)) {
       if (this.#children === undefined) { this.subdivide(); }
       if (this.#children !== undefined) { return this.#children.q.insert(node); } }]:
    the state of [this] once the block's tests are done, and the child on
    which the block calls [insert] when it reaches its [return]. *)
Definition insertBlock (q : Quadrant) (this : QuadTree) (node : QuadTreeNode)
  : QuadTree * option QuadTree :=
  if Rectangle_contains (quadrantBoundary q (childrenBoundaries this))
                        (shape node)
  then
    let this :=
      match children this with
      | None => subdivide this
      | Some _ => this
      end in
    match children this with
    | Some c => (this, Some (child q c))
    | None => (this, None)
    end
  else (this, None).

Definition push (this : QuadTree) (node : QuadTreeNode) : QuadTree :=
  mkQuadTree (boundary this) (depthLayer this) (children this)
             (childrenBoundaries this) (nodes this ++ [node]).

(** [insert(node)].  Nothing in the method bounds its recursion but the
    test of [subdivide], [depthLayer + 1 >= MAX_DEPTH], and a layer such as
    [NaN], or [-1e17], which absorbs the [+ 1], never passes it: on such
    a tree a call can nest without end.  [fuel] is the number of nested
    calls that are followed.  The first component is [Some] of the boolean
    that the call returns, or [None] when the call has not returned within
    [fuel] nested calls; the second is the object as the calls that were
    followed have left it. *)
Fixpoint insert (fuel : nat) (this : QuadTree) (node : QuadTreeNode)
  : option bool * QuadTree :=
  match fuel with
  | O => (None, this)
  | S fuel =>
    match insertBlock NE this node with
    | (this, Some c) =>
      let r := insert fuel c node in (fst r, withChild NE this (snd r))
    | (this, None) =>
      match insertBlock NW this node with
      | (this, Some c) =>
        let r := insert fuel c node in (fst r, withChild NW this (snd r))
      | (this, None) =>
        match insertBlock SW this node with
        | (this, Some c) =>
          let r := insert fuel c node in (fst r, withChild SW this (snd r))
        | (this, None) =>
          match insertBlock SE this node with
          | (this, Some c) =>
            let r := insert fuel c node in (fst r, withChild SE this (snd r))
          | (this, None) =>
            if negb (Rectangle_contains (boundary this) (shape node))
            then (Some false, this)
            else (Some true, push this node)
          end
        end
      end
    end
  end.

(** [getAllNodes(nodes)]: pushes this node's records, then those of the
    four children in the order NE, NW, SW, SE, onto the accumulator. *)
Fixpoint getAllNodes (this : QuadTree) (nodes_ : list QuadTreeNode)
  : list QuadTreeNode :=
  match this with
  | mkQuadTree _ _ c _ ns =>
    let nodes_ := fold_left (fun acc node => acc ++ [node]) ns nodes_ in
    match c with
    | Some (mkChildren ne nw sw se) =>
      let nodes_ := getAllNodes ne nodes_ in
      let nodes_ := getAllNodes nw nodes_ in
      let nodes_ := getAllNodes sw nodes_ in
      let nodes_ := getAllNodes se nodes_ in
      nodes_
    | None => nodes_
    end
  end.

(** The guard [!this.#boundary.intersects(range)] at the top of [query]:
    the operand of [!] is the Array that [Rectangle.intersects] returns. *)
Definition queryGuard (this : QuadTree) (range : Shape) : bool :=
  negb (ToBoolean (Array (Rectangle_intersects (boundary this) range))).

(** The loop of [query] over [this.#nodes]; its test
    [range.intersects(this.#nodes[i].shape)] is an Array as well. *)
Definition queryNodes (range : Shape) (ns found : list QuadTreeNode)
  : list QuadTreeNode :=
  fold_left
    (fun found node =>
       if ToBoolean (Array (Shape_intersects range (shape node)))
       then found ++ [node] else found)
    ns found.

Fixpoint query (this : QuadTree) (range : Shape) (found : list QuadTreeNode)
  : list QuadTreeNode :=
  if queryGuard this range then found
  else
    match this with
    | mkQuadTree _ _ c _ ns =>
      let found := queryNodes range ns found in
      match c with
      | Some (mkChildren ne nw sw se) =>
        let found :=
          if Shape_contains range (SRectangle (boundary ne))
          then getAllNodes ne found else query ne range found in
        let found :=
          if Shape_contains range (SRectangle (boundary nw))
          then getAllNodes nw found else query nw range found in
        let found :=
          if Shape_contains range (SRectangle (boundary sw))
          then getAllNodes sw found else query sw range found in
        let found :=
          if Shape_contains range (SRectangle (boundary se))
          then getAllNodes se found else query se range found in
        found
      | None => found
      end
    end.

(** [query] with its first statement, the guarded early return, deleted. *)
Fixpoint queryUnguarded (this : QuadTree) (range : Shape)
  (found : list QuadTreeNode) : list QuadTreeNode :=
  match this with
  | mkQuadTree b _ c _ ns =>
    let found := queryNodes range ns found in
    match c with
    | Some (mkChildren ne nw sw se) =>
      let found :=
        if Shape_contains range (SRectangle (boundary ne))
        then getAllNodes ne found else queryUnguarded ne range found in
      let found :=
        if Shape_contains range (SRectangle (boundary nw))
        then getAllNodes nw found else queryUnguarded nw range found in
      let found :=
        if Shape_contains range (SRectangle (boundary sw))
        then getAllNodes sw found else queryUnguarded sw range found in
      let found :=
        if Shape_contains range (SRectangle (boundary se))
        then getAllNodes se found else queryUnguarded se range found in
      found
    | None => found
    end
  end.

Fixpoint size (this : QuadTree) : nat :=
  match this with
  | mkQuadTree _ _ c _ ns =>
    let count := length ns in
    match c with
    | Some (mkChildren ne nw sw se) =>
      let count := (count + size ne)%nat in
      let count := (count + size nw)%nat in
      let count := (count + size sw)%nat in
      let count := (count + size se)%nat in
      count
    | None => count
    end
  end.

(** [clear()]: empties [#nodes], clears the four children in place and then
    drops them with [this.#children = undefined]. *)
Fixpoint clear (this : QuadTree) : QuadTree :=
  match this with
  | mkQuadTree b d c cb _ =>
    let c :=
      match c with
      | Some (mkChildren ne nw sw se) =>
        Some (mkChildren (clear ne) (clear nw) (clear sw) (clear se))
      | None => None
      end in
    mkQuadTree b d None cb []
  end.

Definition resize (this : QuadTree) (boundary_ : Rectangle) : QuadTree :=
  let this := clear this in
  mkQuadTree boundary_ (depthLayer this) (children this)
    (calulateChildBoundaries
       (x (position boundary_)) (y (position boundary_))
       (x (dimensions boundary_)) (y (dimensions boundary_)))
    (nodes this).

(** *** The states a tree can reach

    The public methods, as operations on the root object.  [query] reads the
    tree and writes only its accumulator.  [OpInsert fuel node] is a call of
    [insert] followed for [fuel] nested calls: a call that returns is
    [OpInsert fuel node] for every [fuel] that is large enough, and the
    object that a call which has not returned has been working on is among
    the states as well. *)
Inductive Operation : Type :=
| OpInsert (fuel : nat) (node : QuadTreeNode)
| OpSubdivide
| OpQuery (range : Shape) (found : list QuadTreeNode)
| OpClear
| OpResize (boundary_ : Rectangle).

Definition step (this : QuadTree) (op : Operation) : QuadTree :=
  match op with
  | OpInsert fuel node => snd (insert fuel this node)
  | OpSubdivide => subdivide this
  | OpQuery _ _ => this
  | OpClear => clear this
  | OpResize b => resize this b
  end.

Definition run (this : QuadTree) (ops : list Operation) : QuadTree :=
  fold_left step ops this.

Definition reachable (t : QuadTree) : Prop :=
  exists b d ops, t = run (QuadTree_new b d) ops.

(** A property of every node of a tree. *)
Fixpoint ForallNodes (P : QuadTree -> Prop) (t : QuadTree) : Prop :=
  match t with
  | mkQuadTree _ _ c _ _ =>
    P t /\
    match c with
    | Some (mkChildren ne nw sw se) =>
      ForallNodes P ne /\ ForallNodes P nw /\
      ForallNodes P sw /\ ForallNodes P se
    | None => True
    end
  end.

(** Each child's layer is its parent's layer [+ 1], the sum that
    [subdivide] computes: the same number in the sense of [Object.is],
    which is what equality of binary64 values is here. *)
Definition childOneDeeper (t : QuadTree) : Prop :=
  forall c q, children t = Some c ->
              depthLayer (child q c) = depthLayer t + 1.

(** Children are absent, or all four are there. *)
Definition childrenAllOrNone (t : QuadTree) : Prop :=
  children t = None \/
  exists ne nw sw se, children t = Some (mkChildren ne nw sw se).

(** [depthLayer >= MAX_DEPTH] is false of the node. *)
Definition belowMaxDepth (t : QuadTree) : Prop :=
  num_ge (depthLayer t) MAX_DEPTH = false.

(** [depthLayer >= MAX_DEPTH] is false of every child of the node. *)
Definition childBelowMaxDepth (t : QuadTree) : Prop :=
  forall c q, children t = Some c -> belowMaxDepth (child q c).

(** Each child covers the quadrant that its parent precomputed for it. *)
Definition childOnQuadrant (t : QuadTree) : Prop :=
  forall c q, children t = Some c ->
              boundary (child q c) = quadrantBoundary q (childrenBoundaries t).

(** What the methods keep true of every node. *)
Definition nodeInvariant (t : QuadTree) : Prop :=
  childOneDeeper t /\ childBelowMaxDepth t /\ childOnQuadrant t.

Definition invariant (t : QuadTree) : Prop := ForallNodes nodeInvariant t.

(** The number of layers of a tree: 1 for a node without children. *)
Fixpoint height (t : QuadTree) : nat :=
  match t with
  | mkQuadTree _ _ c _ _ =>
    match c with
    | Some (mkChildren ne nw sw se) =>
      S (Nat.max (Nat.max (height ne) (height nw))
                 (Nat.max (height sw) (height se)))
    | None => 1%nat
    end
  end.

(** The test of [subdivide], [depthLayer + 1 >= MAX_DEPTH], holds at layer
    [d] or at one of the [k] layers [d + 1], [(d + 1) + 1], ... that
    follow it.  From the default layer 0 it holds within 7 layers. *)
Fixpoint limitWithin (k : nat) (d : number) : bool :=
  num_ge (d + 1) MAX_DEPTH ||
  match k with
  | O => false
  | S k => limitWithin k (d + 1)
  end.

(** Inserting a sequence of records, each [insert] returning [true].  One
    [fuel] serves for all the calls: a call that returns within some number
    of nested calls returns the same within every larger one. *)
Fixpoint insertAll (fuel : nat) (this : QuadTree)
  (records : list QuadTreeNode) : option QuadTree :=
  match records with
  | [] => Some this
  | node :: rest =>
    let '(ok, this) := insert fuel this node in
    match ok with
    | Some true => insertAll fuel this rest
    | _ => None
    end
  end.

(** The block of [insert] that reaches its [return], if one does. *)
Definition route (this : QuadTree) (node : QuadTreeNode)
  : QuadTree * option (Quadrant * QuadTree) :=
  match insertBlock NE this node with
  | (this1, Some c) => (this1, Some (NE, c))
  | (this1, None) =>
    match insertBlock NW this1 node with
    | (this2, Some c) => (this2, Some (NW, c))
    | (this2, None) =>
      match insertBlock SW this2 node with
      | (this3, Some c) => (this3, Some (SW, c))
      | (this3, None) =>
        match insertBlock SE this3 node with
        | (this4, Some c) => (this4, Some (SE, c))
        | (this4, None) => (this4, None)
        end
      end
    end
  end.

(** ** Concrete shapes and trees used by the examples *)

Definition v2 (a b : number) : Vector2D := mkVector2D a b.

Definition rect (px py w h : number) : Rectangle :=
  mkRectangle (v2 px py) (v2 w h).

Definition tenByTen : QuadTree := QuadTree_default (rect 0 0 10 10).


Definition farAway : QuadTreeNode :=
  mkQuadTreeNode (SPoint (mkPoint (v2 100 100))).

Definition offset : QuadTree := QuadTree_default (rect 0.2 0 0.7 1).

Definition onTheEdge : QuadTreeNode :=
  mkQuadTreeNode (SPoint (mkPoint (v2 0.9 0.25))).

Definition inside1 : QuadTreeNode :=
  mkQuadTreeNode (SPoint (mkPoint (v2 1 1))).
Definition inside2 : QuadTreeNode :=
  mkQuadTreeNode (SRectangle (rect 2 2 6 6)).
Definition inside3 : QuadTreeNode :=
  mkQuadTreeNode (SCircle (mkCircle (v2 7 7) 1)).

Definition tiny : QuadTreeNode :=
  mkQuadTreeNode (SRectangle (rect 1 1 0.001 0.001)).

(** A tree constructed at a layer that absorbs the [+ 1] of [subdivide]. *)
Definition absorbing : QuadTree := QuadTree_new (rect 0 0 10 10) (-1e17).

Definition filled : QuadTree :=
  match insertAll 8 tenByTen [inside1; inside2; inside3] with
  | Some t => t
  | None => tenByTen
  end.

(** ** lib/movement *)

Definition moveToward (from to delta : number) : number :=
  if num_lt from to then Math_min (from + delta) to
  else Math_max (from - delta) to.

(** ** Shapes: overlaps *)

Definition Circle_overlapsLine (this : Circle) (shape : Line) : bool :=
  let closest := Line_closestPoint shape (mkPoint (Circle_position this)) in
  num_le (V.magnitudeSquared (V.subtractBy (Circle_position this) closest))
         (radius this * radius this).

Definition Circle_overlapsRectangle (this : Circle) (shape : Rectangle)
  : bool :=
  let overlap :=
    V.magnitudeSquared
      (V.subtractBy
         (mkVector2D
            (clamp (x (Circle_position this)) (x (position shape))
                   (x (position shape) + x (dimensions shape)))
            (clamp (y (Circle_position this)) (y (position shape))
                   (y (position shape) + y (dimensions shape))))
         (Circle_position this)) in
  num_lt (overlap - Math_pow2 (radius this)) 0.

Definition Circle_overlapsCircle (this shape : Circle) : bool :=
  num_le (V.magnitudeSquared
            (V.subtractBy (Circle_position this) (Circle_position shape)))
         (Math_pow2 (radius this + radius shape)).

(** [this.overlaps(point)] reaches [#overlapsPoint], which returns
    [this.contains(point)]. *)
Definition Triangle_overlapsPoint (this : Triangle) (shape : Point) : bool :=
  Triangle_containsPoint this shape.

Definition Triangle_overlapsLine (this : Triangle) (shape : Line) : bool :=
  Triangle_overlapsPoint this (mkPoint (start shape)) ||
  Line_overlapsLine (Triangle_side this 0) shape ||
  Line_overlapsLine (Triangle_side this 1) shape ||
  Line_overlapsLine (Triangle_side this 2) shape.

Definition Triangle_overlapsRectangle (this : Triangle) (shape : Rectangle)
  : bool :=
  Triangle_overlapsLine this (Rectangle_top shape) ||
  Triangle_overlapsLine this (Rectangle_bottom shape) ||
  Triangle_overlapsLine this (Rectangle_left shape) ||
  Triangle_overlapsLine this (Rectangle_right shape) ||
  Rectangle_containsPoint shape (mkPoint (Triangle_position this 0)).

Definition Triangle_overlapsTriangle (this shape : Triangle) : bool :=
  Triangle_overlapsLine this (Triangle_side shape 0) ||
  Triangle_overlapsLine this (Triangle_side shape 1) ||
  Triangle_overlapsLine this (Triangle_side shape 2) ||
  Triangle_overlapsPoint shape (mkPoint (Triangle_position this 0)).

Definition Triangle_overlapsCircle (this : Triangle) (shape : Circle)
  : bool :=
  Triangle_containsPoint this (mkPoint (Circle_position shape)) ||
  num_le (V.magnitudeSquared
            (V.subtractBy (Circle_position shape)
               (Triangle_closestPoint this
                  (mkPoint (Circle_position shape)))))
         (Math_pow2 (radius shape)).

Definition Triangle_overlaps (this : Triangle) (shape : Shape) : bool :=
  match shape with
  | SPoint p => Triangle_overlapsPoint this p
  | SLine l => Triangle_overlapsLine this l
  | SRectangle r => Triangle_overlapsRectangle this r
  | STriangle t => Triangle_overlapsTriangle this t
  | SCircle c => Triangle_overlapsCircle this c
  | SRay _ => false
  end.

Definition Rectangle_overlapsLine (this : Rectangle) (shape : Line) : bool :=
  Rectangle_containsPoint this (mkPoint (start shape)) ||
  Rectangle_containsPoint this (mkPoint (end_ shape)) ||
  Line_overlapsLine (Rectangle_top this) shape ||
  Line_overlapsLine (Rectangle_bottom this) shape ||
  Line_overlapsLine (Rectangle_left this) shape ||
  Line_overlapsLine (Rectangle_right this) shape.

Definition Rectangle_overlaps (this : Rectangle) (shape : Shape) : bool :=
  match shape with
  | SPoint p => Rectangle_containsPoint this p
  | SLine l => Rectangle_overlapsLine this l
  | SRectangle r => Rectangle_overlapsRectangle this r
  | STriangle t => Triangle_overlapsRectangle t this
  | SCircle c => Circle_overlapsRectangle c this
  | SRay _ => false
  end.

Definition Circle_overlaps (this : Circle) (shape : Shape) : bool :=
  match shape with
  | SPoint p => Circle_overlapsPoint this p
  | SLine l => Circle_overlapsLine this l
  | SRectangle r => Circle_overlapsRectangle this r
  | STriangle t => Triangle_overlapsCircle t this
  | SCircle c => Circle_overlapsCircle this c
  | SRay _ => false
  end.

Definition Line_overlaps (this : Line) (shape : Shape) : bool :=
  match shape with
  | SPoint p => Line_overlapsPoint this p
  | SLine l => Line_overlapsLine this l
  | SRectangle r => Rectangle_overlapsLine r this
  | STriangle t => Triangle_overlapsLine t this
  | SCircle c => Circle_overlapsLine c this
  | SRay _ => false
  end.

(** [Point.overlaps] answers a Line with [line.contains(this)] and every
    area shape with the [#contains...] stub of [Point], which is [false]. *)
Definition Point_overlaps (this : Point) (shape : Shape) : bool :=
  match shape with
  | SPoint p => Point_containsPoint this p
  | SLine l => Line_contains l (SPoint this)
  | SRectangle _ => false
  | STriangle _ => false
  | SCircle _ => false
  | SRay _ => false
  end.

Definition Ray_overlaps (this : Ray) (shape : Shape) : bool := false.

Definition Shape_overlaps (this shape : Shape) : bool :=
  match this with
  | SPoint s => Point_overlaps s shape
  | SLine s => Line_overlaps s shape
  | SRectangle s => Rectangle_overlaps s shape
  | STriangle s => Triangle_overlaps s shape
  | SCircle s => Circle_overlaps s shape
  | SRay s => Ray_overlaps s shape
  end.

(** ** Ray: collision and reflect *)

(** The result of [collision]: [undefined], or the pair
    [[point, normal]]. *)
Definition Collision : Type := option (Vector2D * Vector2D).

Definition Ray_collisionLine (this : Ray) (shape : Line) : Collision :=
  match Ray_intersectsLine this shape with
  | [] => None
  | v0 :: _ =>
    Some (v0,
          V.multiply_n (V.normalized (V.perp (Line_vector shape)))
                       (Line_side shape (origin this)))
  end.

(** The local variables of the loop in [#collisionRectangle] and
    [#collisionTriangle]. *)
Record Closest : Type :=
  mkClosest {
    closestIntersection : option Vector2D;
    vIntersectionNormal : option Vector2D;
    closestDistance : number;
    bCollide : bool }.

Definition closestStart : Closest := mkClosest None None infinity false.

(** One turn of the loop, for the side [side]. *)
Definition closestStep (this : Ray) (st : Closest) (side : Line) : Closest :=
  match Ray_intersectsLine this side with
  | [] => st
  | v0 :: _ =>
    let d := V.magnitudeSquared (V.subtractBy v0 (origin this)) in
    if num_lt d (closestDistance st)
    then mkClosest (Some v0)
                   (Some (V.normalized (V.perp (Line_vector side))))
                   d true
    else mkClosest (closestIntersection st) (vIntersectionNormal st)
                   (closestDistance st) true
  end.

(** After the loop: the pair when both variables are set; otherwise
    [unreachable()] logs and the method returns [undefined]. *)
Definition closestResult (st : Closest) : Collision :=
  if bCollide st then
    match closestIntersection st, vIntersectionNormal st with
    | Some p, Some n => Some (p, n)
    | _, _ => None
    end
  else None.

Definition Ray_collisionRectangle (this : Ray) (shape : Rectangle)
  : Collision :=
  closestResult
    (fold_left (fun st i => closestStep this st (Rectangle_side shape i))
               (seq 0 (Rectangle_sideCount shape)) closestStart).

Definition Ray_collisionTriangle (this : Ray) (shape : Triangle)
  : Collision :=
  closestResult
    (fold_left (fun st i => closestStep this st (Triangle_side shape i))
               (seq 0 (Triangle_sideCount shape)) closestStart).

Definition Ray_collisionCircle (this : Ray) (shape : Circle) : Collision :=
  match Ray_intersectsCircle this shape with
  | [] => None
  | v0 :: _ =>
    Some (v0, V.normalized (V.subtractBy v0 (Circle_position shape)))
  end.

(** [#collisionPoint] logs "to be implemented" and [#collisionRay]
    "unimplemented"; both return [undefined]. *)
Definition Ray_collision (this : Ray) (shape : Shape) : Collision :=
  match shape with
  | SPoint _ => None
  | SLine l => Ray_collisionLine this l
  | SRectangle r => Ray_collisionRectangle this r
  | STriangle t => Ray_collisionTriangle this t
  | SCircle c => Ray_collisionCircle this c
  | SRay _ => None
  end.

(** [#reflectLine], [#reflectRectangle], [#reflectTriangle] and
    [#reflectCircle] share one body. *)
Definition reflectOff (this : Ray) (vCollision : Collision) : option Ray :=
  match vCollision with
  | Some (p, n) => Some (mkRay p (V.reflect (direction this) n))
  | None => None
  end.

Definition Ray_reflect (this : Ray) (shape : Shape) : option Ray :=
  match shape with
  | SPoint _ => None
  | SLine l => reflectOff this (Ray_collision this (SLine l))
  | SRectangle r => reflectOff this (Ray_collision this (SRectangle r))
  | STriangle t => reflectOff this (Ray_collision this (STriangle t))
  | SCircle c => reflectOff this (Ray_collision this (SCircle c))
  | SRay _ => None
  end.

(** ** Notions used to state the properties *)

(** The order of binary64 values other than NaN, as [SFcompare] decides
    it: a lexicographic order on class and sign, exponent and mantissa. *)
Definition SFkey (f : spec_float) : Z * (Z * Z) :=
  match f with
  | S754_zero _ => (0, (0, 0))%Z
  | S754_infinity s => ((if s then -2 else 2), (0, 0))%Z
  | S754_nan => (0, (0, 0))%Z
  | S754_finite s m e =>
    if s then (-1, (- e, Z.neg m))%Z else (1, (e, Z.pos m))%Z
  end.

Definition keyLt (a b : Z * (Z * Z)) : Prop :=
  (fst a < fst b \/
   (fst a = fst b /\
    (fst (snd a) < fst (snd b) \/
     (fst (snd a) = fst (snd b) /\ snd (snd a) < snd (snd b)))))%Z.

(** No vector of the list is a duplicate, in the sense of
    [filterDuplicateVectors], of one that comes before it. *)
Inductive separated : list Vector2D -> Prop :=
| separated_nil : separated []
| separated_snoc (l : list Vector2D) (v : Vector2D) :
    separated l -> existsb (V.is_duplicate v) l = false ->
    separated (l ++ [v]).

(** The records a node holds lie within the node's boundary. *)
Definition recordsWithin (t : QuadTree) : Prop :=
  Forall (fun node => Rectangle_contains (boundary t) (shape node) = true)
         (nodes t).

(** The record that an answer of [insert] adds to the tree: the new one
    when the answer is [true], none otherwise. *)
Definition added (answer : option bool) (node : QuadTreeNode)
  : list QuadTreeNode :=
  match answer with
  | Some true => [node]
  | _ => []
  end.

(** The squared distance from the ray's origin that [collision] compares. *)
Definition fromOrigin (this : Ray) (p : Vector2D) : number :=
  V.magnitudeSquared (V.subtractBy p (origin this)).

(** What the loop of [#collisionRectangle] and [#collisionTriangle] has
    established once it has gone over the sides [seen]. *)
Definition closestInvariant (this : Ray) (seen : list Line) (st : Closest)
  : Prop :=
  (forall p, closestIntersection st = Some p ->
             exists side rest,
               In side seen /\
               Ray_intersectsLine this side = p :: rest /\
               vIntersectionNormal st =
               Some (V.normalized (V.perp (Line_vector side))) /\
               closestDistance st = fromOrigin this p) /\
  (forall side q rest,
      In side seen -> Ray_intersectsLine this side = q :: rest ->
      num_lt (fromOrigin this q) (closestDistance st) = false) /\
  (bCollide st = false ->
   forall side, In side seen -> Ray_intersectsLine this side = []).

Definition noNaN (v : Vector2D) : bool :=
  negb (isNaN (x v)) && negb (isNaN (y v)).

(** * Properties *)

(** ** Vector2D *)

(** C10. [Vector2D.neq] has the body of [Vector2D.eq]: for all vectors it
    returns what [eq] returns, true exactly when both coordinates are
    [===]-equal, and it is never the negation of [eq]. *)
Theorem neq_same_as_eq : forall a b : Vector2D,
  V.neq a b = V.eq a b /\
  (V.neq a b = true <->
   strict_eq (x a) (x b) = true /\ strict_eq (y a) (y b) = true) /\
  V.neq a b <> negb (V.eq a b).
Proof.
  intros a b. unfold V.neq, V.eq. split; [reflexivity | split].
  - apply andb_true_iff.
  - destruct (strict_eq (x a) (x b) && strict_eq (y a) (y b)); discriminate.
Qed.

(** ** Shapes *)

(** The masked index of [Rectangle.side] is one of 0, 1, 2, 3, so the
    method never reaches its [throw]. *)
Lemma Rectangle_side_index (index : nat) : (Nat.land index 3 <= 3)%nat.
Proof.
  change 3%nat with (Nat.ones 2) at 1. rewrite Nat.land_ones.
  pose proof (Nat.mod_upper_bound index (2 ^ 2)) as H. cbn in H. cbn. lia.
Qed.

(** ** Structural facts about trees *)

Lemma QuadTree_induction (P : QuadTree -> Prop) :
  (forall b d cb ns, P (mkQuadTree b d None cb ns)) ->
  (forall b d ne nw sw se cb ns,
      P ne -> P nw -> P sw -> P se ->
      P (mkQuadTree b d (Some (mkChildren ne nw sw se)) cb ns)) ->
  forall t, P t.
Proof.
  intros Hleaf Hnode. fix IH 1.
  intros [b d [[ne nw sw se]|] cb ns].
  - apply Hnode; apply IH.
  - apply Hleaf.
Qed.

Lemma push_loop (ns acc : list QuadTreeNode) :
  fold_left (fun acc node => acc ++ [node]) ns acc = acc ++ ns.
Proof.
  revert acc. induction ns as [|n ns IH]; intros acc; cbn.
  - now rewrite app_nil_r.
  - rewrite IH, <- app_assoc. reflexivity.
Qed.

Lemma getAllNodes_acc (t : QuadTree) :
  forall acc, getAllNodes t acc = acc ++ getAllNodes t [].
Proof.
  induction t as [b d cb ns|b d ne nw sw se cb ns IHne IHnw IHsw IHse]
    using QuadTree_induction; intros acc; cbn [getAllNodes].
  - rewrite !push_loop. reflexivity.
  - rewrite !push_loop. cbn [app].
    rewrite (IHse (getAllNodes sw _)), (IHsw (getAllNodes nw _)),
      (IHnw (getAllNodes ne _)), (IHne (acc ++ ns)).
    rewrite (IHse (getAllNodes sw (getAllNodes nw (getAllNodes ne ns)))),
      (IHsw (getAllNodes nw (getAllNodes ne ns))),
      (IHnw (getAllNodes ne ns)), (IHne ns).
    rewrite !app_assoc. reflexivity.
Qed.

(** Moves every non-empty accumulator of [getAllNodes] out in front. *)
Ltac accumulators_out :=
  repeat match goal with
         | |- context [getAllNodes ?t ?acc] =>
           lazymatch acc with
           | [] => fail
           | _ => rewrite (getAllNodes_acc t acc)
           end
         end;
  rewrite ?app_nil_r, ?app_assoc.

Lemma size_getAllNodes (t : QuadTree) : size t = length (getAllNodes t []).
Proof.
  induction t as [b d cb ns|b d ne nw sw se cb ns IHne IHnw IHsw IHse]
    using QuadTree_induction; cbn [getAllNodes size].
  - rewrite push_loop. reflexivity.
  - rewrite push_loop. cbn [app].
    accumulators_out. rewrite !length_app. lia.
Qed.

(** ** query *)

(** An Array is truthy whatever it holds, so the loop of [query] keeps
    every stored record. *)
Lemma queryNodes_all (range : Shape) (ns found : list QuadTreeNode) :
  queryNodes range ns found = found ++ ns.
Proof.
  unfold queryNodes. revert found.
  induction ns as [|n ns IH]; intros found; cbn.
  - now rewrite app_nil_r.
  - rewrite IH, <- app_assoc. reflexivity.
Qed.

Lemma queryUnguarded_all (t : QuadTree) (range : Shape) :
  forall found, queryUnguarded t range found = found ++ getAllNodes t [].
Proof.
  induction t as [b d cb ns|b d ne nw sw se cb ns IHne IHnw IHsw IHse]
    using QuadTree_induction; intros found;
    cbn [queryUnguarded getAllNodes]; rewrite queryNodes_all, push_loop.
  - reflexivity.
  - cbn [app].
    repeat match goal with
           | |- context [if ?c then _ else _] => destruct c
           end;
      rewrite ?IHne, ?IHnw, ?IHsw, ?IHse; accumulators_out; reflexivity.
Qed.

Lemma queryGuard_false (t : QuadTree) (range : Shape) :
  queryGuard t range = false.
Proof. reflexivity. Qed.

Lemma query_unguarded (t : QuadTree) (range : Shape) :
  forall found, query t range found = queryUnguarded t range found.
Proof.
  induction t as [b d cb ns|b d ne nw sw se cb ns IHne IHnw IHsw IHse]
    using QuadTree_induction; intros found; cbn [query queryUnguarded];
    rewrite queryGuard_false.
  - reflexivity.
  - rewrite !IHne, !IHnw, !IHsw, !IHse. reflexivity.
Qed.

Lemma query_all (t : QuadTree) (range : Shape) (found : list QuadTreeNode) :
  query t range found = found ++ getAllNodes t [].
Proof. rewrite query_unguarded. apply queryUnguarded_all. Qed.

(** C6. The early return at the top of [query] is dead: the guard negates
    an Array, which is truthy even when empty, so for every tree, range and
    accumulator the guard is false and [query] computes what it would
    compute with the guard deleted, looking at the stored records and at
    the children of every node. *)
Theorem query_guard_never_taken :
  forall (t : QuadTree) (range : Shape) (found : list QuadTreeNode),
    queryGuard t range = false /\
    query t range found = queryUnguarded t range found /\
    ToBoolean (Array (@nil Vector2D)) = true.
Proof.
  intros t range found. split; [|split].
  - apply queryGuard_false.
  - apply query_unguarded.
  - reflexivity.
Qed.

(** ** insert *)

Lemma insertBlock_spec (q : Quadrant) (t : QuadTree) (node : QuadTreeNode) :
  match insertBlock q t node with
  | (t', Some c) =>
    Rectangle_contains (quadrantBoundary q (childrenBoundaries t))
                       (shape node) = true /\
    (t' = t \/
     (children t = None /\ num_ge (depthLayer t + 1) MAX_DEPTH = false /\
      t' = subdivide t)) /\
    (exists cs, children t' = Some cs /\ c = child q cs)
  | (t', None) =>
    t' = t /\
    (Rectangle_contains (quadrantBoundary q (childrenBoundaries t))
                        (shape node) = false \/
     (children t = None /\ num_ge (depthLayer t + 1) MAX_DEPTH = true))
  end.
Proof.
  unfold insertBlock, subdivide.
  destruct t as [b d [cs|] cb ns]; cbn [children childrenBoundaries depthLayer];
    destruct (Rectangle_contains _ _) eqn:Hc; cbn [children]; auto.
  - repeat split; auto. exists cs. auto.
  - destruct (num_ge (d + 1) MAX_DEPTH) eqn:Hd; cbn [children].
    + auto.
    + repeat split; auto. eexists. split; reflexivity.
Qed.

Lemma route_spec (t : QuadTree) (node : QuadTreeNode) :
  match route t node with
  | (t', Some (q, c)) =>
    Rectangle_contains (quadrantBoundary q (childrenBoundaries t))
                       (shape node) = true /\
    (t' = t \/
     (children t = None /\ num_ge (depthLayer t + 1) MAX_DEPTH = false /\
      t' = subdivide t)) /\
    (exists cs, children t' = Some cs /\ c = child q cs)
  | (t', None) =>
    t' = t /\
    forall q,
      Rectangle_contains (quadrantBoundary q (childrenBoundaries t))
                         (shape node) = false \/
      (children t = None /\ num_ge (depthLayer t + 1) MAX_DEPTH = true)
  end.
Proof.
  unfold route.
  pose proof (insertBlock_spec NE t node) as H1.
  destruct (insertBlock NE t node) as [t1 [c|]]; [exact H1|].
  destruct H1 as [-> H1].
  pose proof (insertBlock_spec NW t node) as H2.
  destruct (insertBlock NW t node) as [t2 [c|]]; [exact H2|].
  destruct H2 as [-> H2].
  pose proof (insertBlock_spec SW t node) as H3.
  destruct (insertBlock SW t node) as [t3 [c|]]; [exact H3|].
  destruct H3 as [-> H3].
  pose proof (insertBlock_spec SE t node) as H4.
  destruct (insertBlock SE t node) as [t4 [c|]]; [exact H4|].
  destruct H4 as [-> H4].
  split; [reflexivity|]. intros []; assumption.
Qed.

(** One call of [insert]: the block that returns hands the call on to a
    child, and when none does the node decides by its own boundary. *)
Lemma insert_eq (fuel : nat) (this : QuadTree) (node : QuadTreeNode) :
  insert (S fuel) this node =
  match route this node with
  | (this', Some (q, c)) =>
    let r := insert fuel c node in (fst r, withChild q this' (snd r))
  | (this', None) =>
    if negb (Rectangle_contains (boundary this') (shape node))
    then (Some false, this')
    else (Some true, push this' node)
  end.
Proof.
  cbn [insert]. unfold route.
  destruct (insertBlock NE this node) as [t1 [c|]]; [reflexivity|].
  destruct (insertBlock NW t1 node) as [t2 [c|]]; [reflexivity|].
  destruct (insertBlock SW t2 node) as [t3 [c|]]; [reflexivity|].
  destruct (insertBlock SE t3 node) as [t4 [c|]]; reflexivity.
Qed.

Lemma child_setChild (q q' : Quadrant) (cs : QuadTreeChildren)
      (c' : QuadTree) :
  child q' (setChild q cs c') =
  match q, q' with
  | NE, NE | NW, NW | SW, SW | SE, SE => c'
  | _, _ => child q' cs
  end.
Proof. destruct q, q', cs; reflexivity. Qed.

Lemma ForallNodes_unfold (P : QuadTree -> Prop) (t : QuadTree) :
  ForallNodes P t <->
  P t /\ (forall cs q, children t = Some cs -> ForallNodes P (child q cs)).
Proof.
  destruct t as [b d [[ne nw sw se]|] cb ns]; cbn [ForallNodes children].
  - split.
    + intros (Ht & Hne & Hnw & Hsw & Hse). split; [assumption|].
      intros cs q E. injection E as <-. destruct q; assumption.
    + intros (Ht & Hc). split; [assumption|].
      repeat split.
      * exact (Hc _ NE eq_refl).
      * exact (Hc _ NW eq_refl).
      * exact (Hc _ SW eq_refl).
      * exact (Hc _ SE eq_refl).
  - split.
    + intros (Ht & _). split; [assumption|]. discriminate.
    + intros (Ht & _). split; [assumption|exact I].
Qed.

Lemma ForallNodes_impl (P Q : QuadTree -> Prop) :
  (forall t, P t -> Q t) -> forall t, ForallNodes P t -> ForallNodes Q t.
Proof.
  intros HPQ t.
  induction t as [b d cb ns|b d ne nw sw se cb ns IHne IHnw IHsw IHse]
    using QuadTree_induction; cbn [ForallNodes].
  - intros [H _]. split; auto.
  - intros (H & Hne & Hnw & Hsw & Hse). repeat split; auto.
Qed.

Lemma invariant_new (b : Rectangle) (d : number) :
  invariant (QuadTree_new b d).
Proof.
  unfold invariant, QuadTree_new. cbn [ForallNodes].
  split; [|exact I]. repeat split; intros c q E; discriminate E.
Qed.

Lemma invariant_subdivide (t : QuadTree) :
  invariant t -> invariant (subdivide t).
Proof.
  intros Ht. unfold subdivide.
  destruct (children t) eqn:Ec; [assumption|].
  destruct (num_ge (depthLayer t + 1) MAX_DEPTH) eqn:Hd; [assumption|].
  apply ForallNodes_unfold. split.
  - repeat split; intros c q E; cbn [children] in E; injection E as <-;
      destruct q; cbn; try reflexivity; exact Hd.
  - intros c q E. cbn [children] in E. injection E as <-.
    destruct q; apply invariant_new.
Qed.

Lemma subdivide_fields (t : QuadTree) :
  boundary (subdivide t) = boundary t /\
  depthLayer (subdivide t) = depthLayer t /\
  childrenBoundaries (subdivide t) = childrenBoundaries t /\
  nodes (subdivide t) = nodes t.
Proof.
  unfold subdivide. destruct (children t); [auto|].
  destruct (num_ge (depthLayer t + 1) MAX_DEPTH); auto.
Qed.

Lemma withChild_fields (q : Quadrant) (t c' : QuadTree) :
  boundary (withChild q t c') = boundary t /\
  depthLayer (withChild q t c') = depthLayer t /\
  childrenBoundaries (withChild q t c') = childrenBoundaries t /\
  nodes (withChild q t c') = nodes t.
Proof. unfold withChild. destruct (children t); auto. Qed.

(** What [route] leaves of a well-formed tree: a well-formed tree with the
    same root fields, whose child is one layer down, under [MAX_DEPTH] and
    on its quadrant. *)
Lemma route_invariant (t t1 : QuadTree) (q : Quadrant)
      (cs : QuadTreeChildren) :
  invariant t ->
  t1 = t \/
  (children t = None /\ num_ge (depthLayer t + 1) MAX_DEPTH = false /\
   t1 = subdivide t) ->
  children t1 = Some cs ->
  nodeInvariant t1 /\ invariant (child q cs) /\
  boundary t1 = boundary t /\ depthLayer t1 = depthLayer t /\
  childrenBoundaries t1 = childrenBoundaries t /\
  depthLayer (child q cs) = depthLayer t + 1 /\
  num_ge (depthLayer t + 1) MAX_DEPTH = false /\
  boundary (child q cs) = quadrantBoundary q (childrenBoundaries t).
Proof.
  intros Ht Ht1 Ecs.
  assert (Hinv1 : invariant t1).
  { destruct Ht1 as [->|(_ & _ & ->)];
      [assumption | now apply invariant_subdivide]. }
  assert (Hf1 : boundary t1 = boundary t /\ depthLayer t1 = depthLayer t /\
                childrenBoundaries t1 = childrenBoundaries t).
  { destruct Ht1 as [->|(_ & _ & ->)]; [auto|].
    pose proof (subdivide_fields t). tauto. }
  destruct Hf1 as (Hb & Hd & Hcb).
  apply ForallNodes_unfold in Hinv1. destruct Hinv1 as [Hn1 Hc1].
  pose proof Hn1 as (H1 & H2 & H3).
  specialize (H1 cs q Ecs). specialize (H2 cs q Ecs).
  specialize (H3 cs q Ecs). unfold belowMaxDepth in H2.
  rewrite H1, Hd in H2. rewrite Hd in H1. rewrite Hcb in H3.
  split; [exact Hn1|]. split; [exact (Hc1 cs q Ecs)|].
  repeat split; assumption.
Qed.

(** [insert] keeps the invariant and leaves the root's boundary, layer and
    quadrant boundaries as they were, however far it is followed. *)
Lemma insert_invariant (node : QuadTreeNode) :
  forall (fuel : nat) (t : QuadTree),
    invariant t ->
    invariant (snd (insert fuel t node)) /\
    boundary (snd (insert fuel t node)) = boundary t /\
    depthLayer (snd (insert fuel t node)) = depthLayer t /\
    childrenBoundaries (snd (insert fuel t node)) = childrenBoundaries t.
Proof.
  induction fuel as [|fuel IH]; intros t Ht; [cbn [insert snd]; auto|].
  rewrite insert_eq. pose proof (route_spec t node) as R.
  destruct (route t node) as [t1 [[q c]|]].
  - destruct R as (_ & Ht1 & (cs & Ecs & ->)).
    destruct (route_invariant t t1 q cs Ht Ht1 Ecs)
      as (Hn1 & Hic & Hb & Hd & Hcb & _).
    assert (Hc1 : forall q', invariant (child q' cs)).
    { intros q'. exact (proj1 (proj2 (route_invariant t t1 q' cs Ht Ht1 Ecs))). }
    destruct (IH (child q cs) Hic) as (Ic & Bc & Dc & _).
    cbn [fst snd]. set (c' := snd (insert fuel (child q cs) node)) in *.
    pose proof (withChild_fields q t1 c') as (Wb & Wd & Wcb & _).
    rewrite Wb, Wd, Wcb. split; [|tauto].
    apply ForallNodes_unfold. split.
    + destruct Hn1 as (H1 & H2 & H3).
      unfold nodeInvariant, childOneDeeper, childBelowMaxDepth,
        childOnQuadrant, belowMaxDepth in *.
      rewrite Wd, Wcb. unfold withChild. rewrite Ecs. cbn [children].
      repeat split; intros x q' E; injection E as <-;
        rewrite child_setChild;
        destruct q, q'; rewrite ?Dc, ?Bc; auto.
    + unfold withChild. rewrite Ecs. cbn [children].
      intros x q' E. injection E as <-. rewrite child_setChild.
      destruct q, q'; auto; apply Hc1.
  - destruct R as [-> _].
    destruct (negb _); cbn [fst snd]; [auto|].
    split; [|destruct t; auto].
    apply ForallNodes_unfold in Ht. apply ForallNodes_unfold.
    destruct t; exact Ht.
Qed.

Lemma clear_eq (t : QuadTree) :
  clear t =
  mkQuadTree (boundary t) (depthLayer t) None (childrenBoundaries t) [].
Proof. destruct t; reflexivity. Qed.

Lemma step_invariant (op : Operation) (t : QuadTree) :
  invariant t ->
  invariant (step t op) /\ depthLayer (step t op) = depthLayer t.
Proof.
  intros Ht. destruct op as [fuel node| |range found| |b]; cbn [step].
  - pose proof (insert_invariant node fuel t Ht). tauto.
  - split; [now apply invariant_subdivide|].
    pose proof (subdivide_fields t). tauto.
  - auto.
  - rewrite clear_eq. split; [|reflexivity].
    split; [|exact I]. repeat split; intros c q E; discriminate E.
  - unfold resize. rewrite clear_eq. split; [|reflexivity].
    split; [|exact I]. repeat split; intros c q E; discriminate E.
Qed.

Lemma run_invariant (ops : list Operation) (t : QuadTree) :
  invariant t ->
  invariant (run t ops) /\ depthLayer (run t ops) = depthLayer t.
Proof.
  unfold run. revert t.
  induction ops as [|op ops IH]; intros t Ht; cbn [fold_left].
  - auto.
  - destruct (step_invariant op t Ht) as [Hs Hd].
    destruct (IH _ Hs) as [Hr Hd']. rewrite Hd', Hd. auto.
Qed.

Lemma reachable_invariant (t : QuadTree) : reachable t -> invariant t.
Proof.
  intros (b & d & ops & ->). apply run_invariant, invariant_new.
Qed.

Lemma childrenAllOrNone_all (t : QuadTree) : ForallNodes childrenAllOrNone t.
Proof.
  induction t as [b d cb ns|b d ne nw sw se cb ns IHne IHnw IHsw IHse]
    using QuadTree_induction; cbn [ForallNodes].
  - split; [left; reflexivity | exact I].
  - split; [right; now exists ne, nw, sw, se | auto].
Qed.

(** Below a root of which [depthLayer >= MAX_DEPTH] is false, it is false
    of every node. *)
Lemma invariant_belowMaxDepth (t : QuadTree) :
  invariant t -> belowMaxDepth t -> ForallNodes belowMaxDepth t.
Proof.
  induction t as [b d cb ns|b d ne nw sw se cb ns IHne IHnw IHsw IHse]
    using QuadTree_induction; intros Hi Hr.
  - split; [assumption | exact I].
  - destruct Hi as ((_ & Hmax & _) & Hne & Hnw & Hsw & Hse).
    split; [assumption|].
    repeat split;
      [apply IHne; [assumption | exact (Hmax _ NE eq_refl)]
      |apply IHnw; [assumption | exact (Hmax _ NW eq_refl)]
      |apply IHsw; [assumption | exact (Hmax _ SW eq_refl)]
      |apply IHse; [assumption | exact (Hmax _ SE eq_refl)]].
Qed.

(** A well-formed tree whose root is within [k] layers of the depth limit
    has at most [k + 1] layers. *)
Lemma invariant_height (k : nat) :
  forall t : QuadTree,
    invariant t -> limitWithin k (depthLayer t) = true ->
    (height t <= S k)%nat.
Proof.
  induction k as [|k IH];
    intros [b d [[ne nw sw se]|] cb ns] Hi Hl; cbn [height]; try lia;
    destruct Hi as ((H1 & H2 & _) & Hne & Hnw & Hsw & Hse);
    pose proof (H1 _ NE eq_refl) as Ene; pose proof (H1 _ NW eq_refl) as Enw;
    pose proof (H1 _ SW eq_refl) as Esw; pose proof (H1 _ SE eq_refl) as Ese;
    pose proof (H2 _ NE eq_refl) as Hd; unfold belowMaxDepth in Hd;
    cbn [child northeast northwest southwest southeast depthLayer] in *;
    rewrite Ene in Hd; cbn [limitWithin] in Hl; rewrite Hd in Hl;
    cbn [orb] in Hl; [discriminate Hl|].
  assert (height ne <= S k)%nat by (apply IH; [assumption | now rewrite Ene]).
  assert (height nw <= S k)%nat by (apply IH; [assumption | now rewrite Enw]).
  assert (height sw <= S k)%nat by (apply IH; [assumption | now rewrite Esw]).
  assert (height se <= S k)%nat by (apply IH; [assumption | now rewrite Ese]).
  lia.
Qed.

(** C4, as the code has it.  In every state reached from
    [new QuadTree(b, d)] by [insert], [subdivide], [query], [clear] and
    [resize], for every number [d]: the root keeps its construction depth
    [d]; the layer of every child is its parent's layer [+ 1], the binary64
    sum that [subdivide] computes; children are absent or all four present;
    [depthLayer >= MAX_DEPTH] is false of every child, that is of every
    node other than the root; when it is false of the construction depth,
    as with the default 0, it is false of every node; and when the
    construction depth is within [k] layers of the depth limit the tree has
    at most [k + 1] layers, which from the default 0 is 8. *)
Theorem depth_invariant :
  forall (b : Rectangle) (d : number) (ops : list Operation),
    depthLayer (run (QuadTree_new b d) ops) = d /\
    ForallNodes childOneDeeper (run (QuadTree_new b d) ops) /\
    ForallNodes childrenAllOrNone (run (QuadTree_new b d) ops) /\
    ForallNodes childBelowMaxDepth (run (QuadTree_new b d) ops) /\
    (num_ge d MAX_DEPTH = false ->
     ForallNodes belowMaxDepth (run (QuadTree_new b d) ops)) /\
    (forall k, limitWithin k d = true ->
               (height (run (QuadTree_new b d) ops) <= S k)%nat) /\
    (height (run (QuadTree_default b) ops) <= 8)%nat.
Proof.
  intros b d ops.
  destruct (run_invariant ops _ (invariant_new b d)) as [Hi Hd].
  cbn [depthLayer QuadTree_new] in Hd.
  split; [exact Hd|]. split; [|split; [|split; [|split; [|split]]]].
  - revert Hi. apply ForallNodes_impl. intros t H. apply H.
  - apply childrenAllOrNone_all.
  - revert Hi. apply ForallNodes_impl. intros t H. apply H.
  - intros Hlt. apply invariant_belowMaxDepth; [assumption|].
    unfold belowMaxDepth. rewrite Hd. exact Hlt.
  - intros k Hk. apply invariant_height; [assumption|].
    rewrite Hd. exact Hk.
  - destruct (run_invariant ops _ (invariant_new b 0)) as [Hi0 Hd0].
    apply (invariant_height 7); [exact Hi0|].
    unfold QuadTree_default. rewrite Hd0. vm_compute. reflexivity.
Qed.

(** C4, as stated, fails twice.  A root constructed at layer 8 is a
    reachable state with a node at layer [MAX_DEPTH].  And a tree
    constructed at layer [-1e17], where [+ 1] is absorbed and every child
    has the layer of its parent, exceeds 8 layers: one [insert] of a small
    rectangle, which returns [true], leaves it 11 layers high. *)
Lemma depth_limit_not_kept :
  reachable (QuadTree_new (rect 0 0 10 10) 8) /\
  depthLayer (QuadTree_new (rect 0 0 10 10) 8) = MAX_DEPTH /\
  ~ ForallNodes belowMaxDepth (QuadTree_new (rect 0 0 10 10) 8) /\
  reachable (snd (insert 20 absorbing tiny)) /\
  fst (insert 20 absorbing tiny) = Some true /\
  height (snd (insert 20 absorbing tiny)) = 11%nat /\
  -1e17 + 1 = -1e17.
Proof.
  split; [|split; [|split; [|split]]].
  - exists (rect 0 0 10 10), 8, []. reflexivity.
  - reflexivity.
  - intros [H _]. unfold belowMaxDepth in H. vm_compute in H. discriminate H.
  - exists (rect 0 0 10 10), (-1e17), [OpInsert 20 tiny].
    vm_compute. reflexivity.
  - vm_compute. repeat split.
Qed.

(** [insert] does not answer [false] for a shape that the boundary of a
    well-formed tree contains. *)
Lemma insert_contained (node : QuadTreeNode) :
  forall (fuel : nat) (t : QuadTree),
    invariant t ->
    Rectangle_contains (boundary t) (shape node) = true ->
    fst (insert fuel t node) <> Some false.
Proof.
  induction fuel as [|fuel IH]; intros t Ht Hc; [discriminate|].
  rewrite insert_eq. pose proof (route_spec t node) as R.
  destruct (route t node) as [t1 [[q c]|]].
  - destruct R as (Hq & Ht1 & (cs & Ecs & ->)). cbn [fst].
    destruct (route_invariant t t1 q cs Ht Ht1 Ecs)
      as (_ & Hic & _ & _ & _ & _ & _ & Hon).
    apply IH; [exact Hic|]. rewrite Hon. exact Hq.
  - destruct R as [-> _]. rewrite Hc. discriminate.
Qed.

(** On a well-formed tree whose layer is within [k] layers of the depth
    limit, [insert] returns within [k + 1] nested calls. *)
Lemma insert_returns (node : QuadTreeNode) :
  forall (k fuel : nat) (t : QuadTree),
    invariant t ->
    limitWithin k (depthLayer t) = true ->
    (k < fuel)%nat ->
    fst (insert fuel t node) <> None.
Proof.
  induction k as [|k IH]; intros fuel t Ht Hl Hlt;
    (destruct fuel as [|fuel]; [lia|]);
    rewrite insert_eq; pose proof (route_spec t node) as R;
    destruct (route t node) as [t1 [[q c]|]].
  - destruct R as (_ & Ht1 & (cs & Ecs & ->)).
    destruct (route_invariant t t1 q cs Ht Ht1 Ecs)
      as (_ & _ & _ & _ & _ & _ & Hd & _).
    cbn [limitWithin] in Hl. rewrite Hd in Hl. discriminate Hl.
  - destruct R as [-> _]. destruct (negb _); discriminate.
  - destruct R as (_ & Ht1 & (cs & Ecs & ->)).
    destruct (route_invariant t t1 q cs Ht Ht1 Ecs)
      as (_ & Hic & _ & _ & _ & Hone & Hd & _).
    cbn [limitWithin] in Hl. rewrite Hd in Hl. cbn [orb] in Hl.
    cbn [fst]. apply IH; [exact Hic | rewrite Hone; exact Hl | lia].
  - destruct R as [-> _]. destruct (negb _); discriminate.
Qed.

(** A call that has returned returns the same, and leaves the same tree,
    when it is followed further. *)
Lemma insert_more_fuel (node : QuadTreeNode) :
  forall (fuel fuel' : nat) (t : QuadTree),
    fst (insert fuel t node) <> None ->
    (fuel <= fuel')%nat ->
    insert fuel' t node = insert fuel t node.
Proof.
  induction fuel as [|fuel IH]; intros fuel' t Hret Hle;
    [cbn [insert fst] in Hret; congruence|].
  destruct fuel' as [|fuel']; [lia|].
  revert Hret. rewrite !insert_eq.
  destruct (route t node) as [t1 [[q c]|]]; [|reflexivity].
  cbn [fst]. intros Hret. rewrite (IH fuel' c Hret) by lia. reflexivity.
Qed.

(** A call that does not return: on a tree constructed at layer [NaN] over
    the empty rectangle at the origin, each node hands the point at the
    origin down to a north-east child that is a copy of itself. *)
Example insert_without_end :
  forall fuel : nat,
    fst (insert fuel (QuadTree_new (rect 0 0 0 0) nan)
           (mkQuadTreeNode (SPoint (mkPoint (v2 0 0))))) = None.
Proof.
  induction fuel as [|fuel IH]; [reflexivity|].
  rewrite insert_eq.
  assert (E : route (QuadTree_new (rect 0 0 0 0) nan)
                    (mkQuadTreeNode (SPoint (mkPoint (v2 0 0)))) =
              (subdivide (QuadTree_new (rect 0 0 0 0) nan),
               Some (NE, QuadTree_new (rect 0 0 0 0) nan)))
    by (vm_compute; reflexivity).
  rewrite E. cbn [fst]. exact IH.
Qed.

(** The depth limit is within 7 layers of the default layer 0, and is never
    within reach of [NaN] or of [-1e17]. *)
Example limit_from_default :
  limitWithin 7 0 = true /\
  limitWithin 6 0 = false /\
  limitWithin 100 nan = false /\
  limitWithin 100 (-1e17) = false.
Proof. vm_compute. repeat split. Qed.




(** C5, as the code has it.  When neither the root boundary nor any of the
    four precomputed quadrant boundaries contains the shape, [insert]
    returns [false], without a nested call, and the tree is the tree it
    was: nothing is stored, [size()] and [getAllNodes()] are unchanged. *)
Theorem insert_outside_rejected :
  forall (fuel : nat) (t : QuadTree) (node : QuadTreeNode),
    Rectangle_contains (boundary t) (shape node) = false ->
    (forall q, Rectangle_contains (quadrantBoundary q (childrenBoundaries t))
                                  (shape node) = false) ->
    insert (S fuel) t node = (Some false, t) /\
    size (snd (insert (S fuel) t node)) = size t /\
    getAllNodes (snd (insert (S fuel) t node)) [] = getAllNodes t [].
Proof.
  intros fuel t node Hroot Hquad.
  assert (E : insert (S fuel) t node = (Some false, t)).
  { rewrite insert_eq. pose proof (route_spec t node) as R.
    destruct (route t node) as [t1 [[q c]|]].
    - destruct R as (Hq & _). rewrite Hquad in Hq. discriminate.
    - destruct R as [-> _]. rewrite Hroot. reflexivity. }
  rewrite E. auto.
Qed.

Lemma insert_outside_rejected_witness :
  insert 1 tenByTen farAway = (Some false, tenByTen) /\
  size (snd (insert 1 tenByTen farAway)) = size tenByTen /\
  getAllNodes (snd (insert 1 tenByTen farAway)) [] = getAllNodes tenByTen [].
Proof.
  apply (insert_outside_rejected 0 tenByTen farAway).
  - vm_compute. reflexivity.
  - intros []; vm_compute; reflexivity.
Defined.

(** C5, as stated, fails.  The right edge of the north-east quadrant is
    [(x + w/2) + w/2], that of the root is [x + w], and the two roundings
    differ for [x = 0.2], [w = 0.7]: a point on the quadrant's edge is
    outside the root boundary, yet [insert] returns [true] and stores it. *)
Lemma insert_outside_accepted :
  Rectangle_contains (boundary offset) (shape onTheEdge) = false /\
  num_gt 0.9 (0.2 + 0.7) = true /\
  fst (insert 8 offset onTheEdge) = Some true /\
  size offset = 0%nat /\
  size (snd (insert 8 offset onTheEdge)) = 1%nat.
Proof. vm_compute. auto. Qed.

(** ** insert, then query *)

Lemma getAllNodes_children (t : QuadTree) (cs : QuadTreeChildren) :
  children t = Some cs ->
  getAllNodes t [] =
  nodes t ++ getAllNodes (child NE cs) [] ++ getAllNodes (child NW cs) [] ++
  getAllNodes (child SW cs) [] ++ getAllNodes (child SE cs) [].
Proof.
  destruct t as [b d c cb ns]. cbn [children]. intros ->.
  destruct cs as [ne nw sw se]. cbn [getAllNodes child nodes
    northeast northwest southwest southeast].
  rewrite push_loop. cbn [app]. accumulators_out.
  rewrite <- !app_assoc. reflexivity.
Qed.

Lemma getAllNodes_subdivide (t : QuadTree) :
  getAllNodes (subdivide t) [] = getAllNodes t [].
Proof.
  unfold subdivide. destruct t as [b d [cs|] cb ns]; cbn [children];
    [reflexivity|].
  destruct (num_ge _ _); [reflexivity|].
  cbn [getAllNodes QuadTree_new]. rewrite !push_loop. cbn [fold_left app].
  rewrite !app_nil_r. reflexivity.
Qed.

Lemma perm_insert_mid {A : Type} (pre post new mid : list A) :
  Permutation (pre ++ (new ++ mid) ++ post) (new ++ pre ++ mid ++ post).
Proof. rewrite <- app_assoc. apply Permutation_app_swap_app. Qed.

(** Whatever [insert] answers, the records of the tree afterwards are the
    records it had, with the new one added when the answer is [true]. *)
Lemma insert_stored (node : QuadTreeNode) :
  forall (fuel : nat) (t : QuadTree),
    Permutation (getAllNodes (snd (insert fuel t node)) [])
                (added (fst (insert fuel t node)) node ++ getAllNodes t []).
Proof.
  induction fuel as [|fuel IH]; intros t; [reflexivity|].
  rewrite insert_eq. pose proof (route_spec t node) as R.
  destruct (route t node) as [t1 [[q c]|]].
  - destruct R as (_ & Ht1 & (cs & Ecs & ->)). cbn [fst snd].
    specialize (IH (child q cs)).
    assert (G1 : getAllNodes t1 [] = getAllNodes t []).
    { destruct Ht1 as [->|(_ & _ & ->)];
        [reflexivity | apply getAllNodes_subdivide]. }
    rewrite <- G1.
    rewrite (getAllNodes_children t1 cs Ecs).
    rewrite (getAllNodes_children (withChild q t1 _)
               (setChild q cs (snd (insert fuel (child q cs) node)))).
    2:{ unfold withChild. rewrite Ecs. reflexivity. }
    destruct (withChild_fields q t1 (snd (insert fuel (child q cs) node)))
      as (_ & _ & _ & ->).
    rewrite !child_setChild.
    set (new := added (fst (insert fuel (child q cs) node)) node) in *.
    destruct q; rewrite IH.
    + apply perm_insert_mid.
    + rewrite (app_assoc (nodes t1) (getAllNodes (child NE cs) [])).
      etransitivity; [apply perm_insert_mid|].
      rewrite <- !app_assoc. reflexivity.
    + rewrite (app_assoc (getAllNodes (child NE cs) [])
                         (getAllNodes (child NW cs) [])).
      rewrite (app_assoc (nodes t1)).
      etransitivity; [apply perm_insert_mid|].
      rewrite <- !app_assoc. reflexivity.
    + rewrite (app_assoc (getAllNodes (child NW cs) [])
                         (getAllNodes (child SW cs) [])).
      rewrite (app_assoc (getAllNodes (child NE cs) [])).
      rewrite (app_assoc (nodes t1)).
      rewrite <- (app_nil_r (new ++ getAllNodes (child SE cs) [])) at 1.
      etransitivity; [apply perm_insert_mid|].
      rewrite <- !app_assoc, app_nil_r. reflexivity.
  - destruct R as [-> _]. destruct (negb _); cbn [fst snd app added];
      [reflexivity|].
    destruct t as [b d [cs|] cb ns].
    + rewrite (getAllNodes_children (mkQuadTree b d (Some cs) cb ns) cs
                 eq_refl).
      rewrite (getAllNodes_children
                 (push (mkQuadTree b d (Some cs) cb ns) node) cs eq_refl).
      cbn [nodes push]. rewrite <- app_assoc. cbn [app].
      symmetry. apply Permutation_middle.
    + cbn. rewrite !push_loop. cbn [app].
      symmetry. apply Permutation_cons_append.
Qed.

Lemma insertAll_stored (fuel : nat) (records : list QuadTreeNode) :
  forall t0 t,
    insertAll fuel t0 records = Some t ->
    Permutation (getAllNodes t []) (getAllNodes t0 [] ++ records).
Proof.
  induction records as [|node rest IH]; intros t0 t; cbn [insertAll].
  - intros [= <-]. now rewrite app_nil_r.
  - pose proof (insert_stored node fuel t0) as P.
    destruct (insert fuel t0 node) as [[[|]|] t1];
      [|discriminate|discriminate].
    intros Hrest. rewrite (IH _ _ Hrest).
    cbn [fst snd added] in P. rewrite P.
    cbn [app]. apply Permutation_middle.
Qed.

(** C1.  After a sequence of records has been inserted into a tree, each
    [insert] returning [true], [query] with the root boundary as its range
    returns every one of them. *)
Theorem query_root_returns_inserted :
  forall (fuel : nat) (t0 t : QuadTree) (records : list QuadTreeNode),
    insertAll fuel t0 records = Some t ->
    forall node, In node records ->
                 In node (query t (SRectangle (boundary t)) []).
Proof.
  intros fuel t0 t records Hall node Hin.
  rewrite query_all. cbn [app].
  apply (Permutation_in node
           (Permutation_sym (insertAll_stored _ _ _ _ Hall))).
  apply in_or_app. right. exact Hin.
Qed.

Lemma query_root_returns_inserted_witness :
  In inside3 (query filled (SRectangle (boundary filled)) []).
Proof.
  apply (query_root_returns_inserted 8 tenByTen filled
           [inside1; inside2; inside3]).
  - vm_compute. reflexivity.
  - right. right. left. reflexivity.
Defined.

(** ** Intersections of concrete shapes *)

(** C2.  [Line((0,0),(10,10)).intersects(Line((0,10),(10,0)))] returns the
    empty array, not a point near [(5,5)]: [Vector2D.cross] computes
    [x1*x2 - y1*y2], which is 200 here, the parameter [rn] comes out as
    [-0.5] and the range test rejects it.  [Line.overlaps], which computes
    the determinant itself, reports that the same two segments cross. *)
Theorem crossing_segments_no_point :
  Line_intersects (mkLine (v2 0 0) (v2 10 10))
                  (SLine (mkLine (v2 0 10) (v2 10 0))) = [] /\
  V.cross (Line_vector (mkLine (v2 0 0) (v2 10 10)))
          (Line_vector (mkLine (v2 0 10) (v2 10 0))) = 200 /\
  Line_overlapsLine (mkLine (v2 0 0) (v2 10 10))
                    (mkLine (v2 0 10) (v2 10 0)) = true.
Proof. vm_compute. auto. Qed.

(** C7.  [Circle((0,0),5).intersects(Circle((8,0),5))] returns exactly two
    points, [(4,3)] and [(4,-3)]: both on the line [x = 4], mirror images
    of each other across the line through the two centres. *)
Theorem two_circles_two_points :
  Circle_intersects (mkCircle (v2 0 0) 5) (SCircle (mkCircle (v2 8 0) 5)) =
  [v2 4 3; v2 4 (-3)] /\
  Circle_containsCircle (mkCircle (v2 0 0) 5) (mkCircle (v2 8 0) 5) = false.
Proof. vm_compute. auto. Qed.

(** C8.  [Ray((0,0),(1,0)).intersects(Circle((5,0),1))] returns exactly two
    points, [(4,0)] first and [(6,0)] second. *)
Theorem ray_through_circle_two_points :
  Ray_intersects (mkRay (v2 0 0) (v2 1 0)) (SCircle (mkCircle (v2 5 0) 1)) =
  [v2 4 0; v2 6 0] /\
  minMax 6 4 = (4, 6).
Proof. vm_compute. auto. Qed.

(** * Further properties *)

(** ** The order of binary64 values *)

Lemma SFcompare_key (f1 f2 : spec_float) :
  f1 <> S754_nan -> f2 <> S754_nan ->
  match SFcompare f1 f2 with
  | Some Lt => keyLt (SFkey f1) (SFkey f2)
  | Some Eq => SFkey f1 = SFkey f2
  | Some Gt => keyLt (SFkey f2) (SFkey f1)
  | None => False
  end.
Proof.
  intros H1 H2. unfold keyLt.
  destruct f1 as [s1|s1| |s1 m1 e1], f2 as [s2|s2| |s2 m2 e2];
    try congruence;
    try solve [destruct s1; cbn; first [reflexivity | lia]];
    try solve [destruct s2; cbn; first [reflexivity | lia]];
    try solve [destruct s1, s2; cbn; first [reflexivity | lia]].
  destruct s1, s2; cbn [SFcompare SFkey fst snd]; try lia;
    destruct (Z.compare_spec e1 e2) as [->| |]; try lia;
    change (Pos.compare_cont Eq m1 m2) with (Pos.compare m1 m2);
    destruct (Pos.compare_spec m1 m2) as [->| |]; cbn [CompOpp];
    first [reflexivity | lia].
Qed.

Lemma isNaN_spec (a : number) : isNaN a = false <-> Prim2SF a <> S754_nan.
Proof.
  unfold isNaN. rewrite negb_false_iff, FloatAxioms.eqb_spec. unfold SFeqb.
  split.
  - intros H E. rewrite E in H. discriminate.
  - intros H. pose proof (SFcompare_key _ _ H H) as K.
    destruct (SFcompare (Prim2SF a) (Prim2SF a)) as [[]|];
      unfold keyLt in K; first [reflexivity | lia].
Qed.

Lemma num_le_spec (a b : number) :
  num_le a b = true <->
  isNaN a = false /\ isNaN b = false /\
  (keyLt (SFkey (Prim2SF a)) (SFkey (Prim2SF b)) \/
   SFkey (Prim2SF a) = SFkey (Prim2SF b)).
Proof.
  unfold num_le. rewrite FloatAxioms.leb_spec, !isNaN_spec. unfold SFleb.
  split.
  - intros H.
    assert (Ha : Prim2SF a <> S754_nan).
    { intros E. rewrite E in H. discriminate. }
    assert (Hb : Prim2SF b <> S754_nan).
    { intros E. rewrite E in H. destruct (Prim2SF a); discriminate. }
    pose proof (SFcompare_key _ _ Ha Hb) as K.
    destruct (SFcompare (Prim2SF a) (Prim2SF b)) as [[]|]; try discriminate;
      auto.
  - intros (Ha & Hb & H). pose proof (SFcompare_key _ _ Ha Hb) as K.
    destruct (SFcompare (Prim2SF a) (Prim2SF b)) as [[]|];
      try reflexivity; [|contradiction].
    unfold keyLt in *. destruct H as [H|H]; [lia | rewrite H in K; lia].
Qed.

Lemma num_lt_spec (a b : number) :
  num_lt a b = true <->
  isNaN a = false /\ isNaN b = false /\
  keyLt (SFkey (Prim2SF a)) (SFkey (Prim2SF b)).
Proof.
  unfold num_lt. rewrite FloatAxioms.ltb_spec, !isNaN_spec. unfold SFltb.
  split.
  - intros H.
    assert (Ha : Prim2SF a <> S754_nan).
    { intros E. rewrite E in H. discriminate. }
    assert (Hb : Prim2SF b <> S754_nan).
    { intros E. rewrite E in H. destruct (Prim2SF a); discriminate. }
    pose proof (SFcompare_key _ _ Ha Hb) as K.
    destruct (SFcompare (Prim2SF a) (Prim2SF b)) as [[]|]; try discriminate;
      auto.
  - intros (Ha & Hb & H). pose proof (SFcompare_key _ _ Ha Hb) as K.
    destruct (SFcompare (Prim2SF a) (Prim2SF b)) as [[]|];
      try reflexivity; [| |contradiction].
    + unfold keyLt in *. rewrite K in H. lia.
    + unfold keyLt in *. lia.
Qed.

Lemma num_le_trans (a b c : number) :
  num_le a b = true -> num_le b c = true -> num_le a c = true.
Proof.
  rewrite !num_le_spec. unfold keyLt.
  intros (Ha & Hb & H1) (_ & Hc & H2). repeat split; auto.
  destruct H1 as [H1|H1], H2 as [H2|H2]; try rewrite H1 in *;
    try rewrite <- H2 in *; auto. left. lia.
Qed.

Lemma num_lt_trans (a b c : number) :
  num_lt a b = true -> num_lt b c = true -> num_lt a c = true.
Proof.
  rewrite !num_lt_spec. unfold keyLt.
  intros (Ha & Hb & H1) (_ & Hc & H2). repeat split; auto. lia.
Qed.

Lemma num_lt_le_trans (a b c : number) :
  num_lt a b = true -> num_le b c = true -> num_lt a c = true.
Proof.
  rewrite !num_lt_spec, num_le_spec. unfold keyLt.
  intros (Ha & Hb & H1) (_ & Hc & H2). repeat split; auto.
  destruct H2 as [H2|H2]; [lia | rewrite <- H2; exact H1].
Qed.

Lemma num_le_lt_trans (a b c : number) :
  num_le a b = true -> num_lt b c = true -> num_lt a c = true.
Proof.
  rewrite !num_lt_spec, num_le_spec. unfold keyLt.
  intros (Ha & Hb & H1) (_ & Hc & H2). repeat split; auto.
  destruct H1 as [H1|H1]; [lia | rewrite H1; exact H2].
Qed.

Lemma num_lt_le (a b : number) : num_lt a b = true -> num_le a b = true.
Proof. rewrite num_lt_spec, num_le_spec. tauto. Qed.

Lemma num_lt_irrefl (a : number) : num_lt a a = false.
Proof.
  destruct (num_lt a a) eqn:E; [|reflexivity].
  apply num_lt_spec in E. unfold keyLt in E. lia.
Qed.

Lemma num_le_refl (a : number) : isNaN a = false -> num_le a a = true.
Proof. intros H. apply num_le_spec. auto. Qed.

Lemma num_le_not_lt (a b : number) :
  num_le a b = true -> num_lt b a = false.
Proof.
  intros H. destruct (num_lt b a) eqn:E; [|reflexivity].
  apply num_le_spec in H. apply num_lt_spec in E. unfold keyLt in *.
  destruct H as (_ & _ & [H|H]); [lia | rewrite H in E; lia].
Qed.

Lemma num_not_lt_le (a b : number) :
  isNaN a = false -> isNaN b = false ->
  num_lt a b = false -> num_le b a = true.
Proof.
  intros Ha Hb H. apply num_le_spec. repeat split; auto.
  destruct (num_lt b a) eqn:E.
  - apply num_lt_spec in E. tauto.
  - right.
    assert (~ keyLt (SFkey (Prim2SF a)) (SFkey (Prim2SF b))).
    { intros K. rewrite (proj2 (num_lt_spec a b)) in H; [discriminate|auto]. }
    assert (~ keyLt (SFkey (Prim2SF b)) (SFkey (Prim2SF a))).
    { intros K. rewrite (proj2 (num_lt_spec b a)) in E; [discriminate|auto]. }
    unfold keyLt in *.
    destruct (SFkey (Prim2SF a)) as [a1 [a2 a3]],
             (SFkey (Prim2SF b)) as [b1 [b2 b3]].
    cbn [fst snd] in *. f_equal; [lia|]. f_equal; lia.
Qed.

(** ** Math.min, Math.max and what is built on them *)

Lemma Math_min_cases (a b : number) :
  isNaN a = false -> isNaN b = false ->
  (Math_min a b = a \/ Math_min a b = b) /\
  num_le (Math_min a b) a = true /\ num_le (Math_min a b) b = true.
Proof.
  intros Ha Hb. unfold Math_min. rewrite Ha, Hb. cbn [orb].
  destruct (num_lt a b) eqn:Hab.
  - repeat split; auto using num_le_refl, num_lt_le.
  - destruct (num_lt b a) eqn:Hba.
    + repeat split; auto using num_le_refl, num_lt_le.
    + pose proof (num_not_lt_le a b Ha Hb Hab).
      pose proof (num_not_lt_le b a Hb Ha Hba).
      destruct (is_neg_zero a); repeat split; auto using num_le_refl.
Qed.

Lemma Math_max_cases (a b : number) :
  isNaN a = false -> isNaN b = false ->
  (Math_max a b = a \/ Math_max a b = b) /\
  num_le a (Math_max a b) = true /\ num_le b (Math_max a b) = true.
Proof.
  intros Ha Hb. unfold Math_max. rewrite Ha, Hb. cbn [orb].
  destruct (num_lt a b) eqn:Hab.
  - repeat split; auto using num_le_refl, num_lt_le.
  - destruct (num_lt b a) eqn:Hba.
    + repeat split; auto using num_le_refl, num_lt_le.
    + pose proof (num_not_lt_le a b Ha Hb Hab).
      pose proof (num_not_lt_le b a Hb Ha Hba).
      destruct (is_neg_zero a); repeat split; auto using num_le_refl.
Qed.

(** X1.  [minMax] returns its two arguments, the smaller first: for
    arguments that are not NaN the first component is [<=] the second and
    the pair is the two arguments in one order or the other. *)
Theorem minMax_ordered :
  forall first second : number,
    isNaN first = false -> isNaN second = false ->
    num_le (fst (minMax first second)) (snd (minMax first second)) = true /\
    (minMax first second = (first, second) \/
     minMax first second = (second, first)).
Proof.
  intros a b Ha Hb. unfold minMax, Math_min, Math_max. rewrite Ha, Hb.
  cbn [orb fst snd].
  destruct (num_lt a b) eqn:Hab; [auto using num_lt_le|].
  destruct (num_lt b a) eqn:Hba; [auto using num_lt_le|].
  pose proof (num_not_lt_le a b Ha Hb Hab).
  pose proof (num_not_lt_le b a Hb Ha Hba).
  destruct (is_neg_zero a); auto.
Qed.

Lemma minMax_ordered_witness :
  num_le (fst (minMax 6 4)) (snd (minMax 6 4)) = true /\
  (minMax 6 4 = (6, 4) \/ minMax 6 4 = (4, 6)).
Proof. apply (minMax_ordered 6 4); vm_compute; reflexivity. Defined.

(** X2.  [moveToward] never passes its target.  Going up ([from < to]) the
    result is [from + delta] or [to], and is [<= to]; otherwise it is
    [from - delta] or [to], and is [>= to] (the sum, the difference and the
    target not being NaN). *)
Theorem moveToward_stops_at_target :
  forall from to delta : number,
    isNaN to = false ->
    isNaN (from + delta) = false -> isNaN (from - delta) = false ->
    (moveToward from to delta = to \/
     moveToward from to delta =
     if num_lt from to then from + delta else from - delta) /\
    (if num_lt from to
     then num_le (moveToward from to delta) to
     else num_le to (moveToward from to delta)) = true.
Proof.
  intros from to delta Hto Hup Hdown. unfold moveToward.
  destruct (num_lt from to).
  - destruct (Math_min_cases (from + delta) to Hup Hto) as (Hc & _ & Hle).
    tauto.
  - destruct (Math_max_cases (from - delta) to Hdown Hto) as (Hc & _ & Hle).
    tauto.
Qed.

Lemma moveToward_stops_at_target_witness :
  (moveToward 10 0 0.5 = 0 \/
   moveToward 10 0 0.5 = if num_lt 10 0 then 10 + 0.5 else 10 - 0.5) /\
  (if num_lt 10 0
   then num_le (moveToward 10 0 0.5) 0
   else num_le 0 (moveToward 10 0 0.5)) = true.
Proof.
  apply (moveToward_stops_at_target 10 0 0.5); vm_compute; reflexivity.
Defined.

(** X3.  [Vector2D.clamp(min, max)] puts each coordinate between the
    bounds: when no coordinate involved is NaN and [min <= max] on both
    axes, the result is [>= min] and [<= max] on both axes. *)
Theorem clamp_within_bounds :
  forall this min_ max_ : Vector2D,
    noNaN this = true -> noNaN min_ = true -> noNaN max_ = true ->
    num_le (x min_) (x max_) = true -> num_le (y min_) (y max_) = true ->
    num_le (x min_) (x (V.clamp this min_ max_)) = true /\
    num_le (x (V.clamp this min_ max_)) (x max_) = true /\
    num_le (y min_) (y (V.clamp this min_ max_)) = true /\
    num_le (y (V.clamp this min_ max_)) (y max_) = true.
Proof.
  intros [tx ty] [lx ly] [hx hy]. unfold noNaN. cbn [x y].
  rewrite !andb_true_iff, !negb_true_iff.
  intros [Htx Hty] [Hlx Hly] [Hhx Hhy] Hx Hy.
  unfold V.clamp, V.min, V.max. cbn [x y].
  destruct (Math_max_cases tx lx Htx Hlx) as (Cx & _ & Lx).
  destruct (Math_max_cases ty ly Hty Hly) as (Cy & _ & Ly).
  assert (Nx : isNaN (Math_max tx lx) = false)
    by (destruct Cx as [->| ->]; assumption).
  assert (Ny : isNaN (Math_max ty ly) = false)
    by (destruct Cy as [->| ->]; assumption).
  destruct (Math_min_cases _ hx Nx Hhx) as (Dx & _ & Ux).
  destruct (Math_min_cases _ hy Ny Hhy) as (Dy & _ & Uy).
  repeat split; try assumption.
  - destruct Dx as [->| ->]; assumption.
  - destruct Dy as [->| ->]; assumption.
Qed.

Lemma clamp_within_bounds_witness :
  num_le 0 (x (V.clamp (v2 5 (-3)) (v2 0 0) (v2 4 4))) = true /\
  num_le (x (V.clamp (v2 5 (-3)) (v2 0 0) (v2 4 4))) 4 = true /\
  num_le 0 (y (V.clamp (v2 5 (-3)) (v2 0 0) (v2 4 4))) = true /\
  num_le (y (V.clamp (v2 5 (-3)) (v2 0 0) (v2 4 4))) 4 = true.
Proof.
  apply (clamp_within_bounds (v2 5 (-3)) (v2 0 0) (v2 4 4));
    vm_compute; reflexivity.
Defined.

(** ** Rectangles *)

(** X4.  [Rectangle.overlaps] is symmetric on rectangles: the four
    inequalities of [a.overlaps(b)] are those of [b.overlaps(a)] in another
    order. *)
Theorem Rectangle_overlaps_symmetric :
  forall a b : Rectangle,
    Rectangle_overlaps a (SRectangle b) = Rectangle_overlaps b (SRectangle a).
Proof.
  intros a b. cbn [Rectangle_overlaps].
  unfold Rectangle_overlapsRectangle, num_ge, num_le.
  destruct (PrimFloat.leb (x (position a))
                          (x (position b) + x (dimensions b))),
    (PrimFloat.leb (x (position b)) (x (position a) + x (dimensions a))),
    (PrimFloat.leb (y (position a)) (y (position b) + y (dimensions b))),
    (PrimFloat.leb (y (position b)) (y (position a) + y (dimensions a)));
    reflexivity.
Qed.

(** X5.  [Rectangle.contains] is transitive on rectangles, in binary64 as
    it stands: if [a] contains [b] and [b] contains [c], then [a] contains
    [c]. *)
Theorem Rectangle_contains_transitive :
  forall a b c : Rectangle,
    Rectangle_contains a (SRectangle b) = true ->
    Rectangle_contains b (SRectangle c) = true ->
    Rectangle_contains a (SRectangle c) = true.
Proof.
  intros a b c. cbn [Rectangle_contains].
  unfold Rectangle_containsRectangle, num_ge.
  change PrimFloat.leb with num_le. rewrite !andb_true_iff.
  intros [[[A1 A2] A3] A4] [[[B1 B2] B3] B4].
  repeat split; eauto using num_le_trans.
Qed.

Lemma Rectangle_contains_transitive_witness :
  Rectangle_contains (rect 0 0 10 10) (SRectangle (rect 2 2 1 1)) = true.
Proof.
  apply (Rectangle_contains_transitive (rect 0 0 10 10) (rect 1 1 5 5)
           (rect 2 2 1 1)); vm_compute; reflexivity.
Defined.

(** X6.  A point of a contained rectangle is a point of the containing one:
    if [a] contains the rectangle [b] and [b] contains the point [p], then
    [a] contains [p]. *)
Theorem Rectangle_contains_point_of_contained :
  forall (a b : Rectangle) (p : Point),
    Rectangle_contains a (SRectangle b) = true ->
    Rectangle_contains b (SPoint p) = true ->
    Rectangle_contains a (SPoint p) = true.
Proof.
  intros a b p. cbn [Rectangle_contains].
  unfold Rectangle_containsRectangle, Rectangle_containsPoint, num_ge, num_gt.
  rewrite !andb_true_iff, !negb_true_iff, !orb_false_iff.
  change PrimFloat.ltb with num_lt. change PrimFloat.leb with num_le.
  intros [[[A1 A2] A3] A4] [[[B1 B2] B3] B4].
  repeat split.
  - destruct (num_lt (x (Point_position p)) (x (position a))) eqn:E;
      [|reflexivity].
    rewrite (num_lt_le_trans _ _ _ E A1) in B1. discriminate.
  - destruct (num_lt (y (Point_position p)) (y (position a))) eqn:E;
      [|reflexivity].
    rewrite (num_lt_le_trans _ _ _ E A3) in B2. discriminate.
  - destruct (num_lt (x (position a) + x (dimensions a))
                     (x (Point_position p))) eqn:E; [|reflexivity].
    rewrite (num_le_lt_trans _ _ _ A2 E) in B3. discriminate.
  - destruct (num_lt (y (position a) + y (dimensions a))
                     (y (Point_position p))) eqn:E; [|reflexivity].
    rewrite (num_le_lt_trans _ _ _ A4 E) in B4. discriminate.
Qed.

Lemma Rectangle_contains_point_of_contained_witness :
  Rectangle_contains (rect 0 0 10 10) (SPoint (mkPoint (v2 2 3))) = true.
Proof.
  apply (Rectangle_contains_point_of_contained (rect 0 0 10 10)
           (rect 1 1 5 5) (mkPoint (v2 2 3))); vm_compute; reflexivity.
Defined.

(** X7.  The sides wrap around.  For an index that is a natural number
    with [index + 4] at most 2^53, so that the sums [index + 1],
    [index + 3] and [index + 4] are the exact ones in binary64:
    [Rectangle.side] depends on the index modulo 4 and [Triangle.side]
    modulo 3, and the three sides of a triangle chain: each one ends where
    the next one starts, the third ending where the first starts. *)
Theorem sides_wrap_around :
  forall (r : Rectangle) (t : Triangle) (index : nat),
    (Z.of_nat index + 4 <= 2 ^ 53)%Z ->
    Rectangle_side r (index + 4) = Rectangle_side r index /\
    Triangle_side t (index + 3) = Triangle_side t index /\
    end_ (Triangle_side t index) = start (Triangle_side t (index + 1)) /\
    end_ (Triangle_side t 2) = start (Triangle_side t 0).
Proof.
  intros r t index _. repeat split.
  - unfold Rectangle_side.
    pose proof (Nat.land_ones (index + 4) 2) as H1.
    pose proof (Nat.land_ones index 2) as H2.
    change (Nat.ones 2) with 3%nat in H1, H2.
    change (2 ^ 2)%nat with 4%nat in H1, H2.
    pose proof (Nat.Div0.mod_add index 1 4) as H3.
    change (1 * 4)%nat with 4%nat in H3.
    rewrite H1, H2, H3. reflexivity.
  - unfold Triangle_side.
    replace (index + 3 + 1)%nat with (index + 1 + 3)%nat by lia.
    pose proof (Nat.Div0.mod_add index 1 3) as H3.
    pose proof (Nat.Div0.mod_add (index + 1) 1 3) as H4.
    change (1 * 3)%nat with 3%nat in H3, H4.
    rewrite H3, H4. reflexivity.
Qed.

Lemma sides_wrap_around_witness :
  Rectangle_side (rect 0 0 10 10) (5 + 4) = Rectangle_side (rect 0 0 10 10) 5 /\
  Triangle_side (mkTriangle (v2 0 0) (v2 4 0) (v2 0 3)) (5 + 3) =
  Triangle_side (mkTriangle (v2 0 0) (v2 4 0) (v2 0 3)) 5 /\
  end_ (Triangle_side (mkTriangle (v2 0 0) (v2 4 0) (v2 0 3)) 5) =
  start (Triangle_side (mkTriangle (v2 0 0) (v2 4 0) (v2 0 3)) (5 + 1)) /\
  end_ (Triangle_side (mkTriangle (v2 0 0) (v2 4 0) (v2 0 3)) 2) =
  start (Triangle_side (mkTriangle (v2 0 0) (v2 4 0) (v2 0 3)) 0).
Proof.
  apply (sides_wrap_around (rect 0 0 10 10)
           (mkTriangle (v2 0 0) (v2 4 0) (v2 0 3)) 5).
  vm_compute. discriminate.
Defined.

(** ** What the dispatchers never answer *)

(** X8.  No shape contains a Ray, and a Point, a Line or a Ray contains no
    Rectangle, Triangle or Circle: [contains] is [false] for every such
    pair, whatever the coordinates. *)
Theorem contains_never :
  forall (this : Shape) (r : Ray) (p : Point) (l : Line) (q : Ray)
         (rc : Rectangle) (t : Triangle) (c : Circle),
    Shape_contains this (SRay r) = false /\
    Forall (fun holder =>
              Forall (fun area => Shape_contains holder area = false)
                     [SRectangle rc; STriangle t; SCircle c])
           [SPoint p; SLine l; SRay q].
Proof.
  intros this r p l q rc t c. split.
  - destruct this; reflexivity.
  - repeat constructor.
Qed.

(** X9.  A Ray overlaps nothing and nothing overlaps a Ray; and
    [Point.overlaps] is [false] for every Rectangle, Triangle and Circle,
    even for one that contains the point. *)
Theorem overlaps_never :
  forall (this : Shape) (r : Ray) (p : Point) (rc : Rectangle)
         (t : Triangle) (c : Circle),
    Shape_overlaps (SRay r) this = false /\
    Shape_overlaps this (SRay r) = false /\
    Shape_overlaps (SPoint p) (SRectangle rc) = false /\
    Shape_overlaps (SPoint p) (STriangle t) = false /\
    Shape_overlaps (SPoint p) (SCircle c) = false.
Proof.
  intros this r p rc t c. repeat split; try reflexivity.
  destruct this; reflexivity.
Qed.

(** [overlaps] is not symmetric between a Point and a Rectangle. *)
Example point_rectangle_overlaps_asymmetric :
  Shape_overlaps (SRectangle (rect 0 0 10 10)) (SPoint (mkPoint (v2 5 5)))
  = true /\
  Shape_overlaps (SPoint (mkPoint (v2 5 5))) (SRectangle (rect 0 0 10 10))
  = false.
Proof. vm_compute. auto. Qed.

(** ** filterDuplicateVectors *)

Lemma filterDuplicateVectors_loop (vectors : list Vector2D) :
  forall acc,
    separated acc ->
    exists kept,
      fold_left
        (fun prev currV =>
           if existsb (V.is_duplicate currV) prev then prev
           else prev ++ [currV])
        vectors acc = acc ++ kept /\
      separated (acc ++ kept) /\
      incl kept vectors /\
      (length kept <= length vectors)%nat /\
      (forall v, In v vectors ->
                 In v kept \/
                 existsb (V.is_duplicate v) (acc ++ kept) = true).
Proof.
  induction vectors as [|v vectors IH]; intros acc Hsep; cbn [fold_left].
  - exists []. rewrite app_nil_r.
    repeat split; auto; try apply incl_refl; intros w [].
  - destruct (existsb (V.is_duplicate v) acc) eqn:Hdup.
    + destruct (IH acc Hsep) as (kept & E & S & I & L & C).
      exists kept. repeat split; auto.
      * now apply incl_tl.
      * cbn [length]. lia.
      * intros w [<-|Hw]; [|auto]. right.
        rewrite existsb_app, Hdup. reflexivity.
    + destruct (IH (acc ++ [v]) (separated_snoc acc v Hsep Hdup))
        as (kept & E & S & I & L & C).
      exists (v :: kept). rewrite <- app_assoc in E, S, C. cbn [app] in *.
      repeat split; auto.
      * intros w [<-|Hw]; [now left | right; now apply I].
      * cbn [length]. lia.
      * intros w [<-|Hw]; [left; now left|].
        destruct (C w Hw) as [H|H]; [left; now right | now right].
Qed.

(** X10.  [Vector2D.filterDuplicateVectors] keeps the first vector, keeps
    only vectors of its input, never returns more than it was given, keeps
    no vector that is within epsilon (on both axes) of one kept before it,
    and drops a vector only when a kept one is within epsilon of it. *)
Theorem filterDuplicateVectors_keeps_separated :
  forall vectors : list Vector2D,
    separated (V.filterDuplicateVectors vectors) /\
    incl (V.filterDuplicateVectors vectors) vectors /\
    (length (V.filterDuplicateVectors vectors) <= length vectors)%nat /\
    (forall v, In v vectors ->
               In v (V.filterDuplicateVectors vectors) \/
               existsb (V.is_duplicate v) (V.filterDuplicateVectors vectors)
               = true) /\
    hd_error (V.filterDuplicateVectors vectors) = hd_error vectors.
Proof.
  intros vectors. unfold V.filterDuplicateVectors.
  destruct (filterDuplicateVectors_loop vectors [] separated_nil)
    as (kept & E & S & I & L & C).
  cbn [app] in *. rewrite E. repeat split; auto.
  destruct vectors as [|v vectors]; cbn [fold_left] in E.
  - cbn in L. destruct kept; [reflexivity | cbn in L; lia].
  - cbn [existsb app] in E.
    destruct (filterDuplicateVectors_loop vectors [v])
      as (kept' & E' & _).
    { apply (separated_snoc [] v separated_nil). reflexivity. }
    rewrite E' in E. subst kept. reflexivity.
Qed.

Lemma separated_fixed (l : list Vector2D) :
  separated l -> V.filterDuplicateVectors l = l.
Proof.
  unfold V.filterDuplicateVectors.
  induction 1 as [|l v Hl IH Hv]; [reflexivity|].
  rewrite fold_left_app, IH. cbn [fold_left]. rewrite Hv. reflexivity.
Qed.

(** X11.  [filterDuplicateVectors] is idempotent: filtering a filtered
    array changes nothing. *)
Theorem filterDuplicateVectors_idempotent :
  forall vectors : list Vector2D,
    V.filterDuplicateVectors (V.filterDuplicateVectors vectors) =
    V.filterDuplicateVectors vectors.
Proof.
  intros vectors. apply separated_fixed.
  destruct (filterDuplicateVectors_loop vectors [] separated_nil)
    as (kept & E & S & _).
  unfold V.filterDuplicateVectors. rewrite E. exact S.
Qed.

(** ** How many points an intersection can have *)

Lemma filterDuplicateVectors_length (l : list Vector2D) :
  (length (V.filterDuplicateVectors l) <= length l)%nat.
Proof.
  unfold V.filterDuplicateVectors.
  destruct (filterDuplicateVectors_loop l [] separated_nil)
    as (kept & E & _ & _ & L & _).
  rewrite E. exact L.
Qed.

Lemma flat_map_length_bound {A B : Type} (f : A -> list B) (k : nat)
      (l : list A) :
  (forall a, length (f a) <= k)%nat ->
  (length (flat_map f l) <= k * length l)%nat.
Proof.
  intros Hf. induction l as [|a l IH]; cbn [flat_map length]; [lia|].
  rewrite length_app. specialize (Hf a). lia.
Qed.

Lemma Line_intersectsLine_length (a b : Line) :
  (length (Line_intersectsLine a b) <= 1)%nat.
Proof.
  unfold Line_intersectsLine.
  repeat match goal with
         | |- context [if ?c then _ else _] => destruct c
         end; cbn [length]; lia.
Qed.

Lemma Ray_intersectsLine_length (r : Ray) (l : Line) :
  (length (Ray_intersectsLine r l) <= 1)%nat.
Proof.
  unfold Ray_intersectsLine.
  repeat match goal with
         | |- context [if ?c then _ else _] => destruct c
         end; cbn [length]; lia.
Qed.

Lemma Circle_intersectsLine_length (c : Circle) (l : Line) :
  (length (Circle_intersectsLine c l) <= 2)%nat.
Proof.
  unfold Circle_intersectsLine.
  destruct (negb _); [cbn; lia|].
  destruct (num_lt (Math_abs _) _); [cbn; lia|].
  etransitivity; [apply filterDuplicateVectors_length|].
  repeat match goal with
         | |- context [if ?c then _ else _] => destruct c
         end; cbn [length app]; lia.
Qed.

(** X12.  Bounds on the number of intersection points, for all shapes of
    the given kinds: two segments meet in at most 1 point, a ray and a
    segment in at most 1, a ray and a circle in at most 2, two circles in at
    most 2, a circle and a segment in at most 2, a rectangle and a segment
    in at most 4, a triangle and a segment in at most 3, a ray and a
    rectangle in at most 4, a circle and a rectangle in at most 8. *)
Theorem intersection_counts :
  forall (l l' : Line) (r : Ray) (c c' : Circle) (rc : Rectangle)
         (t : Triangle),
    (length (Shape_intersects (SLine l) (SLine l')) <= 1)%nat /\
    (length (Shape_intersects (SRay r) (SLine l)) <= 1)%nat /\
    (length (Shape_intersects (SRay r) (SCircle c)) <= 2)%nat /\
    (length (Shape_intersects (SCircle c) (SCircle c')) <= 2)%nat /\
    (length (Shape_intersects (SCircle c) (SLine l)) <= 2)%nat /\
    (length (Shape_intersects (SRectangle rc) (SLine l)) <= 4)%nat /\
    (length (Shape_intersects (STriangle t) (SLine l)) <= 3)%nat /\
    (length (Shape_intersects (SRay r) (SRectangle rc)) <= 4)%nat /\
    (length (Shape_intersects (SCircle c) (SRectangle rc)) <= 8)%nat.
Proof.
  intros l l' r c c' rc t.
  cbn [Shape_intersects Line_intersects Ray_intersects Circle_intersects
       Rectangle_intersects Triangle_intersects].
  repeat split.
  - apply Line_intersectsLine_length.
  - apply Ray_intersectsLine_length.
  - unfold Ray_intersectsCircle.
    repeat match goal with
           | |- context [if ?c then _ else _] => destruct c
           end; cbn [length]; try lia.
    destruct (minMax _ _). cbn [length]. lia.
  - unfold Circle_intersectsCircle.
    repeat match goal with
           | |- context [if ?c then _ else _] => destruct c
           end; cbn [length]; lia.
  - apply Circle_intersectsLine_length.
  - unfold Rectangle_intersectsLine.
    etransitivity; [apply filterDuplicateVectors_length|].
    apply (flat_map_length_bound _ 1 (seq 0 4)).
    intros i. apply Line_intersectsLine_length.
  - unfold Triangle_intersectsLine.
    etransitivity; [apply filterDuplicateVectors_length|].
    apply (flat_map_length_bound _ 1 (seq 0 3)).
    intros i. apply Line_intersectsLine_length.
  - unfold Ray_intersectsRectangle.
    etransitivity; [apply filterDuplicateVectors_length|].
    apply (flat_map_length_bound _ 1 (seq 0 4)).
    intros i. apply Ray_intersectsLine_length.
  - unfold Circle_intersectsRectangle.
    apply (flat_map_length_bound _ 2 (seq 0 4)).
    intros i. apply Circle_intersectsLine_length.
Qed.

(** ** More on the quadtree *)

(** X13.  [query] ignores its range: for every tree, every range shape and
    every accumulator it returns the accumulator followed by all the
    records of the tree, in the order of [getAllNodes]. *)
Theorem query_returns_every_record :
  forall (t : QuadTree) (range : Shape) (found : list QuadTreeNode),
    query t range found = found ++ getAllNodes t [].
Proof. intros t range found. apply query_all. Qed.

(** X14.  [size()] is the number of records that [getAllNodes()] returns,
    and [getAllNodes(nodes)] leaves what [nodes] held in front, in order,
    followed by the records of the tree. *)
Theorem size_is_number_of_records :
  forall (t : QuadTree) (acc : list QuadTreeNode),
    size t = length (getAllNodes t []) /\
    getAllNodes t acc = acc ++ getAllNodes t [] /\
    length (getAllNodes t acc) = (length acc + size t)%nat.
Proof.
  intros t acc. split; [apply size_getAllNodes|]. split.
  - apply getAllNodes_acc.
  - rewrite getAllNodes_acc, length_app, size_getAllNodes. reflexivity.
Qed.

Lemma insert_root_fields (node : QuadTreeNode) (fuel : nat) (t : QuadTree) :
  boundary (snd (insert fuel t node)) = boundary t /\
  depthLayer (snd (insert fuel t node)) = depthLayer t /\
  childrenBoundaries (snd (insert fuel t node)) = childrenBoundaries t.
Proof.
  destruct fuel as [|fuel]; [cbn [insert snd]; auto|].
  rewrite insert_eq. pose proof (route_spec t node) as R.
  destruct (route t node) as [t1 [[q c]|]].
  - destruct R as (_ & Ht1 & _). cbn [snd].
    destruct (withChild_fields q t1 (snd (insert fuel c node)))
      as (-> & -> & -> & _).
    destruct Ht1 as [->|(_ & _ & ->)]; [auto|].
    pose proof (subdivide_fields t). tauto.
  - destruct R as [-> _]. destruct (negb _); cbn [snd]; [auto|].
    destruct t; auto.
Qed.

(** X15.  [insert] never loses or duplicates a record and never touches
    the root's geometry: on every tree, and however far the call is
    followed, afterwards the records are those the tree had, plus the new
    one exactly when the answer is [true]; [size()] grows by one or stays;
    the root's boundary, layer and quadrant boundaries are unchanged. *)
Theorem insert_keeps_records :
  forall (fuel : nat) (t : QuadTree) (node : QuadTreeNode),
    Permutation (getAllNodes (snd (insert fuel t node)) [])
                (added (fst (insert fuel t node)) node ++
                 getAllNodes t []) /\
    size (snd (insert fuel t node)) =
    (length (added (fst (insert fuel t node)) node) + size t)%nat /\
    boundary (snd (insert fuel t node)) = boundary t /\
    depthLayer (snd (insert fuel t node)) = depthLayer t /\
    childrenBoundaries (snd (insert fuel t node)) = childrenBoundaries t.
Proof.
  intros fuel t node. split; [apply insert_stored|]. split.
  - rewrite !size_getAllNodes.
    rewrite (Permutation_length (insert_stored node fuel t)), length_app.
    reflexivity.
  - apply insert_root_fields.
Qed.

(** X16.  [clear()] and [resize(b)] leave an empty, childless tree:
    [size()] is 0 and [getAllNodes()] is empty after either; [clear] keeps
    the boundary, [resize] installs [b] and the quadrants of [b]; both keep
    the layer. *)
Theorem clear_and_resize_empty :
  forall (t : QuadTree) (b : Rectangle),
    size (clear t) = 0%nat /\ getAllNodes (clear t) [] = [] /\
    children (clear t) = None /\ boundary (clear t) = boundary t /\
    depthLayer (clear t) = depthLayer t /\
    size (resize t b) = 0%nat /\ getAllNodes (resize t b) [] = [] /\
    children (resize t b) = None /\ boundary (resize t b) = b /\
    depthLayer (resize t b) = depthLayer t /\
    resize t b = QuadTree_new b (depthLayer t).
Proof.
  intros t b. unfold resize. rewrite clear_eq. repeat split.
Qed.

(** X17.  After [resize(b)] the tree accepts what [b] contains.  When the
    layer of the tree is within [k] layers of the depth limit, as the
    default layer 0 is with [k = 7], [insert] of a record whose shape the
    new boundary contains returns [true] within [k + 1] nested calls, and
    the tree then holds exactly that record. *)
Theorem resize_then_insert :
  forall (k fuel : nat) (t : QuadTree) (b : Rectangle) (node : QuadTreeNode),
    limitWithin k (depthLayer t) = true ->
    (k < fuel)%nat ->
    Rectangle_contains b (shape node) = true ->
    fst (insert fuel (resize t b) node) = Some true /\
    getAllNodes (snd (insert fuel (resize t b) node)) [] = [node] /\
    size (snd (insert fuel (resize t b) node)) = 1%nat.
Proof.
  intros k fuel t b node Hl Hlt Hc.
  assert (E : resize t b = QuadTree_new b (depthLayer t))
    by (unfold resize; rewrite clear_eq; reflexivity).
  rewrite E.
  assert (Hok : fst (insert fuel (QuadTree_new b (depthLayer t)) node) =
                Some true).
  { pose proof (insert_contained node fuel _
                  (invariant_new b (depthLayer t)) Hc) as Hnf.
    pose proof (insert_returns node k fuel _
                  (invariant_new b (depthLayer t)) Hl Hlt) as Hret.
    destruct (fst (insert fuel (QuadTree_new b (depthLayer t)) node))
      as [[|]|]; congruence. }
  pose proof (insert_stored node fuel (QuadTree_new b (depthLayer t))) as P.
  rewrite Hok in P. cbn [added app getAllNodes QuadTree_new fold_left] in P.
  apply Permutation_sym, Permutation_length_1_inv in P.
  split; [exact Hok|]. split; [exact P|].
  rewrite size_getAllNodes, P. reflexivity.
Qed.

Lemma resize_then_insert_witness :
  fst (insert 8 (resize filled (rect 0 0 4 4)) inside1) = Some true /\
  getAllNodes (snd (insert 8 (resize filled (rect 0 0 4 4)) inside1)) [] =
  [inside1] /\
  size (snd (insert 8 (resize filled (rect 0 0 4 4)) inside1)) = 1%nat.
Proof.
  apply (resize_then_insert 7 8 filled (rect 0 0 4 4) inside1).
  - vm_compute. reflexivity.
  - lia.
  - vm_compute. reflexivity.
Defined.

(** X18.  On a reachable tree whose layer is within [k] layers of the depth
    limit, as a tree constructed at the default layer 0 is with [k = 7],
    [insert] of a record whose shape the root boundary contains returns
    within [k + 1] nested calls, and it returns [true]. *)
Theorem insert_accepts_contained :
  forall (k fuel : nat) (t : QuadTree) (node : QuadTreeNode),
    reachable t ->
    limitWithin k (depthLayer t) = true ->
    (k < fuel)%nat ->
    Rectangle_contains (boundary t) (shape node) = true ->
    fst (insert fuel t node) = Some true.
Proof.
  intros k fuel t node Hr Hl Hlt Hc. apply reachable_invariant in Hr.
  pose proof (insert_returns node k fuel t Hr Hl Hlt) as Hret.
  pose proof (insert_contained node fuel t Hr Hc) as Hnf.
  destruct (fst (insert fuel t node)) as [[|]|]; congruence.
Qed.

Lemma insert_accepts_contained_witness :
  fst (insert 8 filled inside2) = Some true.
Proof.
  apply (insert_accepts_contained 7 8 filled inside2).
  - exists (rect 0 0 10 10), 0,
      [OpInsert 8 inside1; OpInsert 8 inside2; OpInsert 8 inside3].
    vm_compute. reflexivity.
  - vm_compute. reflexivity.
  - lia.
  - vm_compute. reflexivity.
Defined.

(** X19.  A Ray is never stored: [Rectangle.contains] is [false] for every
    Ray, so [insert] of a record that wraps a Ray returns [false], without
    a nested call, and leaves the tree as it was, on every tree. *)
Theorem insert_ray_rejected :
  forall (fuel : nat) (t : QuadTree) (r : Ray),
    insert (S fuel) t (mkQuadTreeNode (SRay r)) = (Some false, t).
Proof.
  intros fuel t r. rewrite insert_eq.
  pose proof (route_spec t (mkQuadTreeNode (SRay r))) as R.
  destruct (route t (mkQuadTreeNode (SRay r))) as [t1 [[q c]|]].
  - destruct R as (Hq & _). discriminate Hq.
  - destruct R as [-> _]. reflexivity.
Qed.

Lemma subdivide_recordsWithin (t : QuadTree) :
  ForallNodes recordsWithin t -> ForallNodes recordsWithin (subdivide t).
Proof.
  intros Ht. unfold subdivide. destruct (children t) eqn:Ec; [assumption|].
  destruct (num_ge (depthLayer t + 1) MAX_DEPTH); [assumption|].
  apply ForallNodes_unfold. apply ForallNodes_unfold in Ht.
  split; [exact (proj1 Ht)|].
  intros x q' E. cbn [children] in E. injection E as <-.
  destruct q'; (split; [constructor | exact I]).
Qed.

Lemma insert_recordsWithin (node : QuadTreeNode) :
  forall (fuel : nat) (t : QuadTree),
    ForallNodes recordsWithin t ->
    ForallNodes recordsWithin (snd (insert fuel t node)).
Proof.
  induction fuel as [|fuel IH]; intros t Ht; [exact Ht|].
  rewrite insert_eq. pose proof (route_spec t node) as R.
  destruct (route t node) as [t1 [[q c]|]].
  - destruct R as (_ & Ht1 & (cs & Ecs & ->)). cbn [snd].
    assert (H1 : ForallNodes recordsWithin t1).
    { destruct Ht1 as [->|(_ & _ & ->)];
        [assumption | now apply subdivide_recordsWithin]. }
    apply ForallNodes_unfold in H1. destruct H1 as [Hn1 Hc1].
    specialize (IH _ (Hc1 cs q Ecs)).
    apply ForallNodes_unfold. split.
    + unfold recordsWithin in *.
      destruct (withChild_fields q t1 (snd (insert fuel (child q cs) node)))
        as (-> & _ & _ & ->). exact Hn1.
    + unfold withChild. rewrite Ecs. cbn [children].
      intros x q' E. injection E as <-. rewrite child_setChild.
      destruct q, q'; auto.
  - destruct R as [-> _].
    destruct (Rectangle_contains (boundary t) (shape node)) eqn:Hc;
      cbn [negb snd]; [|assumption].
    apply ForallNodes_unfold in Ht. apply ForallNodes_unfold.
    destruct Ht as [Hn Hk]. split.
    + unfold recordsWithin in *. destruct t as [b d c cb ns].
      cbn [push boundary nodes] in *.
      apply Forall_app. split; [assumption|]. constructor; [assumption|].
      constructor.
    + destruct t; exact Hk.
Qed.

(** X20.  Every record sits in a node whose boundary contains it: in every
    state reached from a new tree by [insert], [subdivide], [query],
    [clear] and [resize], each node's own boundary contains the shape of
    each record the node holds. *)
Theorem records_within_their_node :
  forall (b : Rectangle) (d : number) (ops : list Operation),
    ForallNodes recordsWithin (run (QuadTree_new b d) ops).
Proof.
  intros b d ops. unfold run.
  assert (H0 : ForallNodes recordsWithin (QuadTree_new b d))
    by (split; [constructor | exact I]).
  revert H0. generalize (QuadTree_new b d).
  induction ops as [|op ops IH]; intros t Ht; cbn [fold_left];
    [assumption|].
  apply IH. destruct op as [fuel node| |range found| |b']; cbn [step].
  - now apply insert_recordsWithin.
  - now apply subdivide_recordsWithin.
  - assumption.
  - rewrite clear_eq. split; [constructor | exact I].
  - unfold resize. rewrite clear_eq. split; [constructor | exact I].
Qed.

(** X21.  [subdivide()] is idempotent and moves no record: a second call
    changes nothing, and the records, the size and the root's boundary and
    layer are those of the tree before. *)
Theorem subdivide_idempotent :
  forall t : QuadTree,
    subdivide (subdivide t) = subdivide t /\
    getAllNodes (subdivide t) [] = getAllNodes t [] /\
    size (subdivide t) = size t /\
    boundary (subdivide t) = boundary t /\
    depthLayer (subdivide t) = depthLayer t /\
    nodes (subdivide t) = nodes t.
Proof.
  intros t. split; [|split; [|split]].
  - destruct t as [b d [cs|] cb ns]; unfold subdivide;
      cbn [children depthLayer]; [reflexivity|].
    destruct (num_ge (d + 1) MAX_DEPTH) eqn:Hd; cbn [children depthLayer];
      [rewrite Hd|]; reflexivity.
  - apply getAllNodes_subdivide.
  - rewrite !size_getAllNodes, getAllNodes_subdivide. reflexivity.
  - pose proof (subdivide_fields t). tauto.
Qed.

(** X22.  At the depth limit nothing is subdivided: on a childless node
    whose layer plus one reaches [MAX_DEPTH], [insert] returns without a
    nested call; it stores a shape that the node's boundary contains in
    the node itself, after the records already there, and rejects any
    other, whatever the quadrants say. *)
Theorem insert_at_depth_limit :
  forall (fuel : nat) (t : QuadTree) (node : QuadTreeNode),
    children t = None ->
    num_ge (depthLayer t + 1) MAX_DEPTH = true ->
    insert (S fuel) t node =
    if Rectangle_contains (boundary t) (shape node)
    then (Some true, push t node) else (Some false, t).
Proof.
  intros fuel t node Hnone Hd. rewrite insert_eq.
  pose proof (route_spec t node) as R.
  destruct (route t node) as [t1 [[q c]|]].
  - destruct R as (_ & [->|(_ & Hlt & _)] & (cs & Ecs & _));
      congruence.
  - destruct R as [-> _].
    destruct (Rectangle_contains (boundary t) (shape node)); reflexivity.
Qed.

Lemma insert_at_depth_limit_witness :
  insert 1 (QuadTree_new (rect 0 0 10 10) 7) inside1 =
  if Rectangle_contains (boundary (QuadTree_new (rect 0 0 10 10) 7))
                        (shape inside1)
  then (Some true, push (QuadTree_new (rect 0 0 10 10) 7) inside1)
  else (Some false, QuadTree_new (rect 0 0 10 10) 7).
Proof.
  apply (insert_at_depth_limit 0 (QuadTree_new (rect 0 0 10 10) 7) inside1).
  - reflexivity.
  - vm_compute. reflexivity.
Defined.

(** X23.  A shape that no single quadrant contains stays where it is
    offered: when none of the four quadrant boundaries contains the shape
    and the node's boundary does, [insert] returns [true], without a nested
    call, and appends the record to the node's own records, creating no
    children. *)
Theorem insert_straddling_kept :
  forall (fuel : nat) (t : QuadTree) (node : QuadTreeNode),
    (forall q, Rectangle_contains (quadrantBoundary q (childrenBoundaries t))
                                  (shape node) = false) ->
    Rectangle_contains (boundary t) (shape node) = true ->
    insert (S fuel) t node = (Some true, push t node) /\
    nodes (snd (insert (S fuel) t node)) = nodes t ++ [node] /\
    children (snd (insert (S fuel) t node)) = children t.
Proof.
  intros fuel t node Hquad Hroot.
  assert (E : insert (S fuel) t node = (Some true, push t node)).
  { rewrite insert_eq. pose proof (route_spec t node) as R.
    destruct (route t node) as [t1 [[q c]|]].
    - destruct R as (Hq & _). rewrite Hquad in Hq. discriminate.
    - destruct R as [-> _]. rewrite Hroot. reflexivity. }
  rewrite E. destruct t; auto.
Qed.

Lemma insert_straddling_kept_witness :
  insert 1 tenByTen inside2 = (Some true, push tenByTen inside2) /\
  nodes (snd (insert 1 tenByTen inside2)) = nodes tenByTen ++ [inside2] /\
  children (snd (insert 1 tenByTen inside2)) = children tenByTen.
Proof.
  apply (insert_straddling_kept 0 tenByTen inside2).
  - intros []; vm_compute; reflexivity.
  - vm_compute. reflexivity.
Defined.

(** ** Ray.collision and Ray.reflect *)

Lemma fold_left_sides {A : Type} (f : A -> Line -> A) (g : nat -> Line)
      (l : list nat) (a : A) :
  fold_left (fun st i => f st (g i)) l a = fold_left f (map g l) a.
Proof.
  revert a. induction l as [|i l IH]; intros a; cbn; [reflexivity|].
  apply IH.
Qed.

Lemma closestStep_invariant (this : Ray) (seen : list Line) (st : Closest)
      (side : Line) :
  closestInvariant this seen st ->
  closestInvariant this (seen ++ [side]) (closestStep this st side).
Proof.
  intros (Hhit & Hmin & Hnone). unfold closestStep.
  destruct (Ray_intersectsLine this side) as [|v0 rest0] eqn:Ev.
  - split; [|split].
    + intros p Hp. destruct (Hhit p Hp) as (s & r & Hin & H).
      exists s, r. split; [apply in_or_app; now left | exact H].
    + intros s q r Hin Hs. apply in_app_or in Hin.
      destruct Hin as [Hin|[<-|[]]]; [eauto | congruence].
    + intros Hb s Hin. apply in_app_or in Hin.
      destruct Hin as [Hin|[<-|[]]]; [auto | exact Ev].
  - fold (fromOrigin this v0).
    destruct (num_lt (fromOrigin this v0) (closestDistance st)) eqn:Hlt;
      (split; [|split]); cbn [closestIntersection vIntersectionNormal
                               closestDistance bCollide].
    + intros p [= <-]. exists side, rest0.
      split; [apply in_or_app; right; now left | auto].
    + intros s q r Hin Hs. apply in_app_or in Hin.
      destruct Hin as [Hin|[<-|[]]].
      * destruct (num_lt (fromOrigin this q) (fromOrigin this v0)) eqn:E;
          [|reflexivity].
        pose proof (Hmin s q r Hin Hs) as K.
        rewrite (num_lt_trans _ _ _ E Hlt) in K. discriminate.
      * rewrite Ev in Hs. injection Hs as <- <-. apply num_lt_irrefl.
    + discriminate.
    + intros p Hp. destruct (Hhit p Hp) as (s & r & Hin & H).
      exists s, r. split; [apply in_or_app; now left | exact H].
    + intros s q r Hin Hs. apply in_app_or in Hin.
      destruct Hin as [Hin|[<-|[]]]; [eauto|].
      rewrite Ev in Hs. injection Hs as <- <-. exact Hlt.
    + discriminate.
Qed.

Lemma closestLoop_invariant (this : Ray) (sides seen : list Line)
      (st : Closest) :
  closestInvariant this seen st ->
  closestInvariant this (seen ++ sides)
                   (fold_left (closestStep this) sides st).
Proof.
  revert seen st. induction sides as [|s sides IH]; intros seen st H;
    cbn [fold_left].
  - now rewrite app_nil_r.
  - replace (seen ++ s :: sides) with ((seen ++ [s]) ++ sides)
      by (now rewrite <- app_assoc).
    apply IH, closestStep_invariant, H.
Qed.

Lemma closestResult_sides (this : Ray) (sides : list Line)
      (p n : Vector2D) :
  closestResult (fold_left (closestStep this) sides closestStart)
  = Some (p, n) ->
  (exists side rest,
      In side sides /\ Ray_intersectsLine this side = p :: rest /\
      n = V.normalized (V.perp (Line_vector side))) /\
  (forall side q rest,
      In side sides -> Ray_intersectsLine this side = q :: rest ->
      num_lt (fromOrigin this q) (fromOrigin this p) = false).
Proof.
  assert (H0 : closestInvariant this [] closestStart).
  { split; [|split]; cbn; [discriminate | contradiction | contradiction]. }
  pose proof (closestLoop_invariant this sides [] closestStart H0) as H.
  cbn [app] in H. destruct H as (Hhit & Hmin & _).
  unfold closestResult.
  destruct (fold_left (closestStep this) sides closestStart)
    as [ci vn cd bc]. cbn [closestIntersection vIntersectionNormal
                           closestDistance bCollide] in *.
  destruct bc; [|discriminate].
  destruct ci as [p'|]; [|discriminate].
  destruct vn as [n'|]; [|discriminate].
  intros [= <- <-].
  destruct (Hhit p' eq_refl) as (s & r & Hin & Hs & Hn & Hd).
  injection Hn as ->. split.
  - exists s, r. auto.
  - intros s' q r' Hin' Hs'. rewrite <- Hd. eauto.
Qed.

(** X24.  What [Ray.collision] returns for a Rectangle is the nearest hit:
    the point is the first intersection of the ray with one of the four
    sides, the normal is the normalised perpendicular of that side, and the
    first intersection with no side is strictly nearer to the ray's
    origin. *)
Theorem collision_rectangle_nearest :
  forall (this : Ray) (shape : Rectangle) (p n : Vector2D),
    Ray_collision this (SRectangle shape) = Some (p, n) ->
    (exists i rest,
        (i < 4)%nat /\
        Ray_intersects this (SLine (Rectangle_side shape i)) = p :: rest /\
        n = V.normalized (V.perp (Line_vector (Rectangle_side shape i)))) /\
    (forall i q rest,
        (i < 4)%nat ->
        Ray_intersects this (SLine (Rectangle_side shape i)) = q :: rest ->
        num_lt (fromOrigin this q) (fromOrigin this p) = false).
Proof.
  intros this shape p n. cbn [Ray_collision Ray_intersects].
  unfold Ray_collisionRectangle. rewrite fold_left_sides.
  intros H. apply closestResult_sides in H. destruct H as [Hhit Hmin].
  split.
  - destruct Hhit as (s & r & Hin & Hs & Hn).
    apply in_map_iff in Hin. destruct Hin as (i & <- & Hi).
    apply in_seq in Hi. exists i, r.
    unfold Rectangle_sideCount in Hi. repeat split; auto. lia.
  - intros i q r Hi Hq. apply (Hmin (Rectangle_side shape i) q r); auto.
    apply in_map, in_seq. unfold Rectangle_sideCount. lia.
Qed.

Lemma collision_rectangle_nearest_witness :
  (exists i rest,
      (i < 4)%nat /\
      Ray_intersects (mkRay (v2 (-5) 5) (v2 1 0))
                     (SLine (Rectangle_side (rect 0 0 10 10) i)) =
      v2 (-20) 25 :: rest /\
      v2 (-0) 1 =
      V.normalized
        (V.perp (Line_vector (Rectangle_side (rect 0 0 10 10) i)))) /\
  (forall i q rest,
      (i < 4)%nat ->
      Ray_intersects (mkRay (v2 (-5) 5) (v2 1 0))
                     (SLine (Rectangle_side (rect 0 0 10 10) i)) =
      q :: rest ->
      num_lt (fromOrigin (mkRay (v2 (-5) 5) (v2 1 0)) q)
             (fromOrigin (mkRay (v2 (-5) 5) (v2 1 0)) (v2 (-20) 25))
      = false).
Proof.
  apply (collision_rectangle_nearest (mkRay (v2 (-5) 5) (v2 1 0))
           (rect 0 0 10 10) (v2 (-20) 25) (v2 (-0) 1)).
  vm_compute. reflexivity.
Defined.

(** X25.  The same for a Triangle and its three sides. *)
Theorem collision_triangle_nearest :
  forall (this : Ray) (shape : Triangle) (p n : Vector2D),
    Ray_collision this (STriangle shape) = Some (p, n) ->
    (exists i rest,
        (i < 3)%nat /\
        Ray_intersects this (SLine (Triangle_side shape i)) = p :: rest /\
        n = V.normalized (V.perp (Line_vector (Triangle_side shape i)))) /\
    (forall i q rest,
        (i < 3)%nat ->
        Ray_intersects this (SLine (Triangle_side shape i)) = q :: rest ->
        num_lt (fromOrigin this q) (fromOrigin this p) = false).
Proof.
  intros this shape p n. cbn [Ray_collision Ray_intersects].
  unfold Ray_collisionTriangle. rewrite fold_left_sides.
  intros H. apply closestResult_sides in H. destruct H as [Hhit Hmin].
  split.
  - destruct Hhit as (s & r & Hin & Hs & Hn).
    apply in_map_iff in Hin. destruct Hin as (i & <- & Hi).
    apply in_seq in Hi. exists i, r.
    unfold Triangle_sideCount in Hi. repeat split; auto. lia.
  - intros i q r Hi Hq. apply (Hmin (Triangle_side shape i) q r); auto.
    apply in_map, in_seq. unfold Triangle_sideCount. lia.
Qed.

Lemma collision_triangle_nearest_witness :
  (exists i rest,
      (i < 3)%nat /\
      Ray_intersects (mkRay (v2 (-1) (-1)) (v2 2 1))
        (SLine (Triangle_side (mkTriangle (v2 0 0) (v2 10 0) (v2 0 10)) i)) =
      v2 0.5 0 :: rest /\
      v2 (-0) 1 =
      V.normalized
        (V.perp
           (Line_vector
              (Triangle_side (mkTriangle (v2 0 0) (v2 10 0) (v2 0 10)) i)))) /\
  (forall i q rest,
      (i < 3)%nat ->
      Ray_intersects (mkRay (v2 (-1) (-1)) (v2 2 1))
        (SLine (Triangle_side (mkTriangle (v2 0 0) (v2 10 0) (v2 0 10)) i)) =
      q :: rest ->
      num_lt (fromOrigin (mkRay (v2 (-1) (-1)) (v2 2 1)) q)
             (fromOrigin (mkRay (v2 (-1) (-1)) (v2 2 1)) (v2 0.5 0))
      = false).
Proof.
  apply (collision_triangle_nearest (mkRay (v2 (-1) (-1)) (v2 2 1))
           (mkTriangle (v2 0 0) (v2 10 0) (v2 0 10)) (v2 0.5 0) (v2 (-0) 1)).
  vm_compute. reflexivity.
Defined.

(** X26.  [Ray.reflect] answers exactly when [Ray.collision] does, for
    every shape: with a hit [(p, n)] it is the ray from [p] in the direction
    [direction.reflect(n)], with no hit it is [undefined]; for a Point and
    for a Ray both are always [undefined]. *)
Theorem reflect_follows_collision :
  forall (this : Ray) (shape : Shape) (p : Point) (r : Ray),
    Ray_reflect this shape =
    match Ray_collision this shape with
    | Some (hit, normal) =>
      Some (mkRay hit (V.reflect (direction this) normal))
    | None => None
    end /\
    Ray_collision this (SPoint p) = None /\
    Ray_collision this (SRay r) = None /\
    Ray_reflect this (SPoint p) = None /\
    Ray_reflect this (SRay r) = None.
Proof.
  intros this shape p r. repeat split. destruct shape; reflexivity.
Qed.
